(** * maya-tests: the launcher [run_tests.py] and the in-process entry
      point [suite.py]

    A shallow embedding of the two scripts.  Python's control flow is kept
    as it is written: a function either returns a value or raises, and the
    effects it had before raising stay in place.  What the scripts take
    from their surroundings (the platform name, the environment, the
    filesystem, the child process, the unit tests) is data of the model. *)

From Stdlib Require Import ZArith Lia Ascii String.
From stdpp Require Import base strings list gmap pretty.

Open Scope Z_scope.
Open Scope string_scope.

(* ===================================================================== *)
(** ** Python: exceptions, outcomes, and the state-and-exception monad   *)
(* ===================================================================== *)

(** The symbolic error numbers of the [errno] module that the filesystem
    operations below report. *)
Inductive errno_t := ENOENT | EACCES | EEXIST | ENOTDIR | EISDIR | ENOTEMPTY.

#[global] Instance errno_t_eq_dec : EqDecision errno_t.
Proof. solve_decision. Defined.

(** The argument of [sys.exit]: an integer, a boolean, or nothing. *)
Inductive exit_arg := ExitNone | ExitInt (n : Z) | ExitBool (b : bool).

Inductive exn :=
| RuntimeError (msg : string)
| NameError (name : string)
| AttributeError (attr : string)
| OSError (errno : errno_t) (filename : string)
| CalledProcessError (returncode : Z)
| SystemExit (code : exit_arg).

Inductive outcome (A : Type) :=
| Return (a : A)
| Raise (e : exn).
Arguments Return {A} a.
Arguments Raise {A} e.

(** A computation over a state [S]: the state survives an exception. *)
Definition M (S A : Type) : Type := S -> outcome A * S.

Definition ret {S A} (a : A) : M S A := fun s => (Return a, s).
Definition raise {S A} (e : exn) : M S A := fun s => (Raise e, s).
Definition bind {S A B} (m : M S A) (k : A -> M S B) : M S B :=
  fun s => match m s with
           | (Return a, s') => k a s'
           | (Raise e, s') => (Raise e, s')
           end.

Declare Scope py_scope.
Delimit Scope py_scope with py.
Notation "x <- m ;; k" := (bind m (fun x => k))
  (at level 100, m at next level, right associativity) : py_scope.
Notation "m ;; k" := (bind m (fun _ => k))
  (at level 100, right associativity) : py_scope.
Open Scope py_scope.

(** [try: body except <classes matched by handles>: handler]. *)
Definition try_except {S A} (body : M S A) (handles : exn -> bool)
    (handler : exn -> M S A) : M S A :=
  fun s => match body s with
           | (Raise e, s') => if handles e then handler e s' else (Raise e, s')
           | r => r
           end.

(** [try: body finally: final].  The [finally] clause always runs; when it
    raises, its exception replaces whatever [body] had produced. *)
Definition try_finally {S A} (body : M S A) (final : M S unit) : M S A :=
  fun s => let '(r, s') := body s in
           match final s' with
           | (Return _, s'') => (r, s'')
           | (Raise e, s'') => (Raise e, s'')
           end.

(** [sys.exit(arg)] raises [SystemExit(arg)]. *)
Definition sys_exit {S A} (arg : exit_arg) : M S A := raise (SystemExit arg).

(** Exit status of the interpreter for a script whose top level ended with
    the given outcome: 0 when it ran to its end; the argument of
    [SystemExit] when that is an integer ([bool] is a subclass of [int]:
    [True] is 1 and [False] is 0), 0 for [None]; 1 after a traceback for
    any other exception.  The truncation of the status by the operating
    system is not part of the scripts and is left out. *)
Definition exit_status {A} (o : outcome A) : Z :=
  match o with
  | Return _ => 0
  | Raise (SystemExit ExitNone) => 0
  | Raise (SystemExit (ExitInt n)) => n
  | Raise (SystemExit (ExitBool b)) => if b then 1 else 0
  | Raise _ => 1
  end.

(** [sys.exc_info()]: the class name, the exception value and the
    traceback (not modelled). *)
Definition exc_info : Type := string * exn * unit.

Definition exn_class (e : exn) : string :=
  match e with
  | RuntimeError _ => "RuntimeError"
  | NameError _ => "NameError"
  | AttributeError _ => "AttributeError"
  | OSError _ _ => "OSError"
  | CalledProcessError _ => "CalledProcessError"
  | SystemExit _ => "SystemExit"
  end.

Definition sys_exc_info (e : exn) : exc_info := (exn_class e, e, tt).

(** [exc[1]] *)
Definition exc_value (exc : exc_info) : exn := snd (fst exc).

(** [value.errno]: only [OSError] carries the attribute. *)
Definition getattr_errno {S} (value : exn) : M S errno_t :=
  match value with
  | OSError n _ => ret n
  | _ => raise (AttributeError "errno")
  end.

(** [str(n)] and ["{0}".format(n)] for an [int]. *)
Definition str_int (n : Z) : string := pretty n.

(** [sep.join(parts)] *)
Definition str_join (sep : string) (parts : list string) : string :=
  String.concat sep parts.

(** [d.update({k1: v1, ...})] *)
Definition dict_update (d : gmap string string) (kvs : list (string * string))
    : gmap string string :=
  foldl (fun d kv => <[kv.1 := kv.2]> d) d kvs.

(* ===================================================================== *)
(** ** The operating system: paths and the filesystem                    *)
(* ===================================================================== *)

Module os.

(** *** [os.path.join] *)

Fixpoint last_char (s : string) : option ascii :=
  match s with
  | EmptyString => None
  | String c EmptyString => Some c
  | String _ s' => last_char s'
  end.

Definition is_char_in (cs : list ascii) (c : option ascii) : bool :=
  match c with
  | Some c => bool_decide (c ∈ cs)
  | None => false
  end.

(** [posixpath.join(a, b)]. *)
Definition posixpath_join (a b : string) : string :=
  if String.prefix "/" b then b
  else if bool_decide (a = "") || is_char_in ["/"%char] (last_char a) then a +:+ b
  else a +:+ "/" +:+ b.

(** [ntpath.splitdrive], for drive letters ([X:]); shares ([\\host\share])
    are not modelled. *)
Definition ntpath_splitdrive (p : string) : string * string :=
  match p with
  | String c (String ":" rest) => (String c (String ":" EmptyString), rest)
  | _ => ("", p)
  end.

(** [ntpath.join(a, b)] for a second component that is a plain name: no
    leading separator and no drive, as is every second component joined in
    these scripts.  The separator is added unless the part of [a] after its
    drive is empty or already ends in one. *)
Definition ntpath_join (a b : string) : string :=
  let '(drive, path) := ntpath_splitdrive a in
  if bool_decide (path = "") || is_char_in ["\"%char; "/"%char] (last_char path)
  then drive +:+ path +:+ b
  else drive +:+ path +:+ "\" +:+ b.

(** [os.path] is [ntpath] on Windows and [posixpath] elsewhere; [system] is
    the value of [platform.system()]. *)
Definition path_join (system : string) (a b : string) : string :=
  if String.eqb system "Windows" then ntpath_join a b else posixpath_join a b.

(** *** Directory trees

    [read_only] marks an entry that the operating system refuses to delete
    with [EACCES] (the read-only attribute of Windows); [os.chmod] with the
    owner's write bit set clears it. *)
#[warnings="-register-all"]
Inductive tree :=
| File (read_only : bool) (data : string)
| Dir (read_only : bool) (entries : list (string * tree)).

(** The filesystem: the trees in reach, each under the path of its root.  A
    path names a root, or an entry below one through [os.path.join]. *)
Definition FS : Type := list (string * tree).

(** What an operation makes of the entry it is applied to: it fails, it
    deletes the entry ([None]) or it leaves an entry in its place. *)
Definition entry_op : Type := tree -> outcome (option tree).

Section Resolve.
Variable system : string.

(** The entry named [p], searched from the entry [t] whose name is [full]. *)
Fixpoint find_tree (full : string) (t : tree) (p : string) : option tree :=
  if String.eqb full p then Some t
  else match t with
       | File _ _ => None
       | Dir _ entries =>
           (fix find_in (es : list (string * tree)) : option tree :=
              match es with
              | [] => None
              | (name, c) :: es' =>
                  match find_tree (path_join system full name) c p with
                  | Some r => Some r
                  | None => find_in es'
                  end
              end) entries
       end.

(** Apply [op] to the entry named [p]; [None] when there is no such entry. *)
Fixpoint alter_tree (op : entry_op) (full : string) (t : tree) (p : string)
    : option (outcome (option tree)) :=
  if String.eqb full p then Some (op t)
  else match t with
       | File _ _ => None
       | Dir ro entries =>
           match
             (fix alter_in (es : list (string * tree))
                : option (outcome (list (string * tree))) :=
                match es with
                | [] => None
                | (name, c) :: es' =>
                    match alter_tree op (path_join system full name) c p with
                    | Some (Return (Some c')) => Some (Return ((name, c') :: es'))
                    | Some (Return None) => Some (Return es')
                    | Some (Raise e) => Some (Raise e)
                    | None =>
                        match alter_in es' with
                        | Some (Return es'') => Some (Return ((name, c) :: es''))
                        | Some (Raise e) => Some (Raise e)
                        | None => None
                        end
                    end
                end) entries
           with
           | Some (Return es') => Some (Return (Some (Dir ro es')))
           | Some (Raise e) => Some (Raise e)
           | None => None
           end
       end.

(** The roots are the entries of a nameless directory: joining the empty
    path with a name gives the name.  The empty path itself names nothing. *)
Definition find (fs : FS) (p : string) : option tree :=
  if String.eqb p "" then None else find_tree "" (Dir false fs) p.

(** An operation on the entry at [p]; [ENOENT] when nothing is there. *)
Definition at_path (op : entry_op) (p : string) : M FS unit :=
  fun fs =>
    if String.eqb p "" then (Raise (OSError ENOENT p), fs)
    else match alter_tree op "" (Dir false fs) p with
         | Some (Return (Some (Dir _ fs'))) => (Return tt, fs')
         | Some (Return _) => (Return tt, fs)
         | Some (Raise e) => (Raise e, fs)
         | None => (Raise (OSError ENOENT p), fs)
         end.

(** [os.path.exists(p)] *)
Definition path_exists (p : string) : M FS bool :=
  fun fs => (Return (bool_decide (is_Some (find fs p))), fs).

(** [os.listdir(p)] *)
Definition listdir (p : string) : M FS (list string) :=
  fun fs => match find fs p with
            | Some (Dir _ entries) => (Return (entries.*1), fs)
            | Some (File _ _) => (Raise (OSError ENOTDIR p), fs)
            | None => (Raise (OSError ENOENT p), fs)
            end.

(** [os.remove(p)] *)
Definition remove (p : string) : M FS unit :=
  at_path (fun t => match t with
                    | File true _ => Raise (OSError EACCES p)
                    | File false _ => Return None
                    | Dir _ _ => Raise (OSError EISDIR p)
                    end) p.

(** [os.rmdir(p)] *)
Definition rmdir (p : string) : M FS unit :=
  at_path (fun t => match t with
                    | File _ _ => Raise (OSError ENOTDIR p)
                    | Dir true _ => Raise (OSError EACCES p)
                    | Dir false [] => Return None
                    | Dir false (_ :: _) => Raise (OSError ENOTEMPTY p)
                    end) p.

(** [os.chmod(p, mode)]: owner's write bit [S_IWUSR = 0o200]. *)
Definition chmod (p : string) (mode : Z) : M FS unit :=
  at_path (fun t => match t with
                    | File _ data => Return (Some (File (negb (Z.testbit mode 7)) data))
                    | Dir _ entries => Return (Some (Dir (negb (Z.testbit mode 7)) entries))
                    end) p.

(** [os.makedirs(p)] *)
Definition makedirs (p : string) : M FS unit :=
  fun fs => if String.eqb p "" then (Raise (OSError ENOENT p), fs)
            else match find fs p with
                 | Some _ => (Raise (OSError EEXIST p), fs)
                 | None => (Return tt, (p, Dir false []) :: fs)
                 end.

End Resolve.

(** The functions of [os] that [shutil.rmtree] hands to its error handler. *)
Inductive func := f_path_islink | f_listdir | f_remove | f_rmdir.

#[global] Instance func_eq_dec : EqDecision func.
Proof. solve_decision. Defined.

(** [func(path)], result dropped. *)
Definition apply (system : string) (f : func) (p : string) : M FS unit :=
  match f with
  | f_path_islink => ret tt
  | f_listdir => (_ <- listdir system p ;; ret tt)
  | f_remove => remove system p
  | f_rmdir => rmdir system p
  end.

End os.

(* ===================================================================== *)
(** ** [shutil]: removing and copying trees                              *)
(* ===================================================================== *)

Module shutil.

(** An [onerror] handler: [onerror(func, path, sys.exc_info())]. *)
Definition handler : Type := os.func -> string -> exc_info -> M os.FS unit.

(** The handler [rmtree] installs when [onerror] is [None]: it re-raises the
    exception being handled. *)
Definition reraise : handler := fun _ _ exc => raise (exc_value exc).

(** [try: op except os.error: onerror(f, path, sys.exc_info())] *)
Definition guarded (onerror : handler) (f : os.func) (path : string)
    (op : M os.FS unit) : M os.FS unit :=
  try_except op
    (fun e => match e with OSError _ _ => true | _ => false end)
    (fun e => onerror f path (sys_exc_info e)).

Section Rmtree.
Variable system : string.
Variable onerror : handler.

(** The walk of [shutil.rmtree] (Python 2.7, the interpreter generation the
    launcher's handler is written for) over the tree [t] found at [path]:
    the entries are listed, directories are walked, files are removed with
    [os.remove], and the emptied directory is removed with [os.rmdir];
    every failure goes to [onerror].  There are no symbolic links in the
    model. *)
Fixpoint rmtree_walk (path : string) (t : os.tree) : M os.FS unit :=
  match t with
  | os.File _ _ =>
      guarded onerror os.f_listdir path (_ <- os.listdir system path ;; ret tt) ;;
      guarded onerror os.f_rmdir path (os.rmdir system path)
  | os.Dir _ entries =>
      (fix each (es : list (string * os.tree)) : M os.FS unit :=
         match es with
         | [] => ret tt
         | (name, c) :: es' =>
             let fullname := os.path_join system path name in
             match c with
             | os.Dir _ _ => rmtree_walk fullname c
             | os.File _ _ =>
                 guarded onerror os.f_remove fullname (os.remove system fullname)
             end ;;
             each es'
         end) entries ;;
      guarded onerror os.f_rmdir path (os.rmdir system path)
  end.

End Rmtree.

(** [shutil.rmtree(path, ignore_errors=False, onerror=onerror)] *)
Definition rmtree (system : string) (path : string) (onerror : option handler)
    : M os.FS unit :=
  let onerror := default reraise onerror in
  fun fs =>
    match os.find system fs path with
    | Some t => rmtree_walk system onerror path t fs
    | None =>
        (guarded onerror os.f_listdir path (_ <- os.listdir system path ;; ret tt) ;;
         guarded onerror os.f_rmdir path (os.rmdir system path)) fs
    end.

(** [shutil.copytree(src, dst)]: [src] is listed, [dst] is made (it must not
    exist) and receives the entries of [src] with their modes. *)
Definition copytree (system : string) (src dst : string) : M os.FS unit :=
  fun fs =>
    match os.find system fs src with
    | Some (os.Dir ro entries) =>
        match os.find system fs dst with
        | Some _ => (Raise (OSError EEXIST dst), fs)
        | None => (Return tt, (dst, os.Dir ro entries) :: fs)
        end
    | Some (os.File _ _) => (Raise (OSError ENOTDIR src), fs)
    | None => (Raise (OSError ENOENT src), fs)
    end.

End shutil.

(** [stat.S_IRWXU], [stat.S_IRWXG], [stat.S_IRWXO] *)
Definition S_IRWXU : Z := 448.
Definition S_IRWXG : Z := 56.
Definition S_IRWXO : Z := 7.

(* ===================================================================== *)
(** ** run_tests.py: the launcher                                        *)
(* ===================================================================== *)

Module run_tests.

(** What one run of the launcher finds around it. *)
Record World := {
  (** [platform.system()] *)
  platform_system : string;
  (** [os.environ] *)
  os_environ : gmap string string;
  (** the [-m/--maya] option on the command line, when given *)
  argv_maya : option Z;
  (** [os.path.abspath(os.path.join(os.path.dirname(__file__)))] *)
  script_dir : string;
  (** [tempfile.gettempdir()] *)
  tempfile_gettempdir : string;
  (** [str(uuid.uuid4())] as drawn in this run *)
  uuid_uuid4 : string;
  (** what [subprocess.call] gives back for the child: its return code, or
      the exception of a failed launch *)
  child_returncode : outcome Z;
  (** what the child leaves behind in the filesystem *)
  child_writes : os.FS -> os.FS
}.

(** The state of the launcher's process: the filesystem and the children
    spawned so far, each with its command line and environment. *)
Record Proc := {
  fs : os.FS;
  spawned : list (list string * gmap string string)
}.

(** Run a filesystem computation in the process. *)
Definition in_fs {A} (m : M os.FS A) : M Proc A :=
  fun s => let '(r, fs') := m (fs s) in (r, {| fs := fs'; spawned := spawned s |}).

(** [subprocess.call(command, env=env)] *)
Definition call (w : World) (command : list string) (env : gmap string string)
    : M Proc Z :=
  fun s => (child_returncode w,
            {| fs := child_writes w (fs s);
               spawned := spawned s ++ [(command, env)] |}).

(** The names bound at the top level of run_tests.py: its imports
    (lines 12-23), its two constants and its functions. *)
Definition module_globals : list string :=
  [ "absolute_import"; "argparse"; "os"; "platform"; "shutil"; "stat"; "sys";
    "tempfile"; "uuid"; "CalledProcessError"; "call";
    "CURRENT_DIR"; "PARENT_REPO_MODULE_PATH";
    "main"; "create_clean_maya_app_dir"; "remove_read_only";
    "get_maya_location"; "get_mayapy_executable" ].

(** Looking up a global name that is not one of Python's builtins. *)
Definition load_global {S} (name : string) : M S unit :=
  if bool_decide (name ∈ module_globals) then ret tt else raise (NameError name).

(** The expression [errno.EACCES]. *)
Definition errno_EACCES {S} : M S errno_t :=
  load_global "errno" ;; ret EACCES.

Definition CURRENT_DIR (w : World) : string := script_dir w.

Definition PARENT_REPO_MODULE_PATH (w : World) : string :=
  os.path_join (platform_system w)
    (os.path_join (platform_system w) (CURRENT_DIR w) "..") "modules".

(** [remove_read_only(func, path, exc)], lines 83-95. *)
Definition remove_read_only (w : World) (func : os.func) (path : string)
    (exc : exc_info) : M os.FS unit :=
  let excvalue := exc_value exc in
  cond <- (if bool_decide (func ∈ [os.f_rmdir; os.f_remove])
           then (e <- getattr_errno excvalue ;;
                 eacces <- errno_EACCES ;;
                 ret (bool_decide (e = eacces)))
           else ret false) ;;
  if (cond : bool)
  then (os.chmod (platform_system w) path (Z.lor (Z.lor S_IRWXU S_IRWXG) S_IRWXO) ;;
        os.apply (platform_system w) func path)
  else raise (RuntimeError ("Could not remove " +:+ path)).

(** Lines 100-117 of [get_maya_location]: the value of the local variable
    [location] when line 119 is reached. *)
Definition candidate_location (w : World) (maya_version : Z) : option string :=
  let location : option string := None in
  match os_environ w !! "MAYA_LOCATION" with
  | Some value => Some value
  | None =>
      if String.eqb (platform_system w) "Windows"
      then Some ("C:/Program Files/Autodesk/Maya" +:+ str_int maya_version)
      else if String.eqb (platform_system w) "Darwin"
      then Some ("/Applications/Autodesk/maya" +:+ str_int maya_version
                 +:+ "/Maya.app/Contents")
      else
        let location := "/usr/autodesk/maya" +:+ str_int maya_version in
        Some (if (maya_version <? 2016)%Z then location +:+ "-x64" else location)
  end.

Definition not_installed (maya_version : Z) : exn :=
  RuntimeError ("Maya " +:+ str_int maya_version +:+ " is not installed on this system.").

(** [get_maya_location(maya_version)], lines 98-124. *)
Definition get_maya_location (w : World) (maya_version : Z) : M os.FS string :=
  match candidate_location w maya_version with
  | None => raise (not_installed maya_version)
  | Some location =>
      found <- os.path_exists (platform_system w) location ;;
      if (found : bool) then ret location else raise (not_installed maya_version)
  end.

(** [get_mayapy_executable(maya_version)], lines 127-134. *)
Definition get_mayapy_executable (w : World) (maya_version : Z) : M os.FS string :=
  location <- get_maya_location w maya_version ;;
  let python_exe := location +:+ "/bin/mayapy" in
  ret (if String.eqb (platform_system w) "Windows"
       then python_exe +:+ ".exe" else python_exe).

(** [create_clean_maya_app_dir()], lines 64-80. *)
Definition create_clean_maya_app_dir (w : World) : M os.FS string :=
  let system := platform_system w in
  let app_dir := os.path_join system (CURRENT_DIR w) "clean_maya_app_dir" in
  let temp_dir := tempfile_gettempdir w in
  found <- os.path_exists system temp_dir ;;
  (if negb found then os.makedirs system temp_dir else ret tt) ;;
  let maya_app_dir :=
    os.path_join system temp_dir ("maya_app_dir" +:+ uuid_uuid4 w) in
  found <- os.path_exists system maya_app_dir ;;
  (if (found : bool)
   then shutil.rmtree system maya_app_dir (Some (remove_read_only w))
   else ret tt) ;;
  shutil.copytree system app_dir maya_app_dir ;;
  ret maya_app_dir.

(** [main()], lines 29-61.  The model starts after the command line has
    been parsed: [--maya] is an [int] with default 2020. *)
Definition main (w : World) : M Proc unit :=
  let pargs_maya := default 2020 (argv_maya w) in
  let env := os_environ w in
  mayapy <- in_fs (get_mayapy_executable w pargs_maya) ;;
  let command :=
    [mayapy; os.path_join (platform_system w) (CURRENT_DIR w) "suite.py"] in
  maya_app_dir <- in_fs (create_clean_maya_app_dir w) ;;
  let env :=
    dict_update env
      [ ("MAYA_APP_DIR", maya_app_dir);
        ("MAYA_SCRIPT_PATH", "");
        ("MAYA_MODULE_PATH",
         str_join ";" [PARENT_REPO_MODULE_PATH w; CURRENT_DIR w]) ] in
  try_finally
    (try_except
       (rc <- call w command env ;; sys_exit (ExitInt rc))
       (fun e => match e with CalledProcessError _ => true | _ => false end)
       (fun _ => ret tt))
    (in_fs (shutil.rmtree (platform_system w) maya_app_dir None)).

End run_tests.

(* ===================================================================== *)
(** ** suite.py: the entry point inside the embedded interpreter         *)
(* ===================================================================== *)

Module suite.

(** How a test ends when [unittest] runs it. *)
Inductive verdict := Passed | Failed | Errored | Skipped.

#[global] Instance verdict_eq_dec : EqDecision verdict.
Proof. solve_decision. Defined.

(** A discovered test: its id and what running it does. *)
Definition test : Type := string * verdict.

(** [unittest.TestResult]: the ids of the tests that raised an unexpected
    exception ([errors]) and of those whose assertion failed ([failures]). *)
Record TestResult := {
  testsRun : nat;
  errors : list string;
  failures : list string;
  skipped : list string
}.

(** [result.wasSuccessful()] *)
Definition wasSuccessful (r : TestResult) : bool :=
  bool_decide (errors r = []) && bool_decide (failures r = []).

(** The host application, as the entry point meets it. *)
Record Host := {
  (** [os.path.abspath(os.path.join(os.path.dirname(__file__)))] *)
  script_dir : string;
  platform_system : string;
  (** the exception of [maya.standalone.initialize], if it raises *)
  initialize_fails : option exn;
  (** the exception of [maya.standalone.uninitialize], if it raises *)
  uninitialize_fails : option exn;
  (** the tests [unittest] finds under a start directory *)
  discoverable : string -> list test
}.

(** The host runtime of the process. *)
Inductive runtime := NotStarted | Standalone | ShutDown.

Definition CURRENT_DIR (h : Host) : string := script_dir h.
Definition PARENT_REPO_DIR (h : Host) : string :=
  os.path_join (platform_system h) (CURRENT_DIR h) "..".
Definition TEST_DIR (h : Host) : string :=
  os.path_join (platform_system h) (PARENT_REPO_DIR h) "tests".

(** [session_setup()], lines 13-16. *)
Definition session_setup (h : Host) : M runtime unit :=
  fun s => match initialize_fails h with
           | Some e => (Raise e, s)
           | None => (Return tt, Standalone)
           end.

(** [session_teardown()], lines 19-22. *)
Definition session_teardown (h : Host) : M runtime unit :=
  fun s => match uninitialize_fails h with
           | Some e => (Raise e, s)
           | None => (Return tt, ShutDown)
           end.

(** [with mayapy_session(): body], lines 25-29.  The generator has no
    [try]: an exception of [body] is thrown into it at the [yield] and
    leaves it at once, so the teardown runs only when [body] completes. *)
Definition mayapy_session {A} (h : Host) (body : M runtime A) : M runtime A :=
  session_setup h ;;
  r <- body ;;
  session_teardown h ;;
  ret r.

(** [loader.discover(start_dir)] *)
Definition discover (h : Host) (start_dir : string) : M runtime (list test) :=
  ret (discoverable h start_dir).

Definition ids_with (v : verdict) (tests : list test) : list string :=
  (filter (fun t => t.2 = v) tests).*1.

(** [runner.run(suite)] *)
Definition run (tests : list test) : M runtime TestResult :=
  ret {| testsRun := length (filter (fun t => t.2 ≠ Skipped) tests);
         errors := ids_with Errored tests;
         failures := ids_with Failed tests;
         skipped := ids_with Skipped tests |}.

(** [bool(l)] for a list. *)
Definition bool_of_list {A} (l : list A) : bool :=
  match l with [] => false | _ :: _ => true end.

(** [main()], lines 32-38. *)
Definition main (h : Host) : M runtime bool :=
  mayapy_session h
    (tests <- discover h (TEST_DIR h) ;;
     result <- run tests ;;
     ret (bool_of_list (errors result))).

(** Lines 41-42: [sys.exit(main())]. *)
Definition script (h : Host) : M runtime unit :=
  b <- main h ;; sys_exit (ExitBool b).

End suite.

(* ===================================================================== *)
(** ** A whole run: the launcher with suite.py as its child              *)
(* ===================================================================== *)

(** The launcher's world when the child it spawns is the embedded
    interpreter running suite.py in host [h]: the child's return code is
    the exit status of that script. *)
Definition with_suite (w : run_tests.World) (h : suite.Host) : run_tests.World :=
  {| run_tests.platform_system := run_tests.platform_system w;
     run_tests.os_environ := run_tests.os_environ w;
     run_tests.argv_maya := run_tests.argv_maya w;
     run_tests.script_dir := run_tests.script_dir w;
     run_tests.tempfile_gettempdir := run_tests.tempfile_gettempdir w;
     run_tests.uuid_uuid4 := run_tests.uuid_uuid4 w;
     run_tests.child_returncode :=
       Return (exit_status (suite.script h suite.NotStarted).1);
     run_tests.child_writes := run_tests.child_writes w |}.

(** The exit code the calling shell sees from [python run_tests.py]. *)
Definition launcher_exit_code (w : run_tests.World) (s : run_tests.Proc) : Z :=
  exit_status (run_tests.main w s).1.

(** *** Sample machines *)

Definition sample_world (system : string) (environ : gmap string string)
    (maya : option Z) (dir tmp : string) (rc : outcome Z) : run_tests.World :=
  {| run_tests.platform_system := system;
     run_tests.os_environ := environ;
     run_tests.argv_maya := maya;
     run_tests.script_dir := dir;
     run_tests.tempfile_gettempdir := tmp;
     run_tests.uuid_uuid4 := "0b1e4c1e-58b3-4f4e-9a55-5d3c1b1f2a10";
     run_tests.child_returncode := rc;
     run_tests.child_writes := fun fs => fs |}.

Definition sample_prefs (read_only : bool) : os.tree :=
  os.Dir false
    [ ("prefs", os.Dir false [ ("userPrefs.mel", os.File read_only "// prefs") ]) ].

(** A Linux machine with Maya 2020 and Maya 2015 installed, a further
    installation under /opt, the bundled preferences next to the scripts
    and an existing temporary directory; the child exits with 0. *)
Definition linux_world : run_tests.World :=
  sample_world "Linux" {[ "HOME" := "/home/ci" ]} None
    "/repo/maya-tests" "/tmp" (Return 0).

Definition linux_world_override : run_tests.World :=
  sample_world "Linux" {[ "MAYA_LOCATION" := "/opt/maya" ]} None
    "/repo/maya-tests" "/tmp" (Return 0).

Definition linux_fs : os.FS :=
  [ ("/usr/autodesk/maya2020", os.Dir false []);
    ("/usr/autodesk/maya2015-x64", os.Dir false []);
    ("/opt/maya", os.Dir false []);
    ("/tmp", os.Dir false []);
    ("/repo/maya-tests/clean_maya_app_dir", sample_prefs false) ].

Definition linux_proc : run_tests.Proc :=
  {| run_tests.fs := linux_fs; run_tests.spawned := [] |}.

(** A Mac with Maya 2020. *)
Definition darwin_world : run_tests.World :=
  sample_world "Darwin" ∅ (Some 2020) "/Users/ci/maya-tests" "/private/tmp" (Return 0).

Definition darwin_fs : os.FS :=
  [ ("/Applications/Autodesk/maya2020/Maya.app/Contents", os.Dir false []);
    ("/private/tmp", os.Dir false []);
    ("/Users/ci/maya-tests/clean_maya_app_dir", sample_prefs false) ].

(** A Windows machine with Maya 2020 whose bundled preferences were checked
    out with a read-only file; the child exits with 0. *)
Definition windows_world : run_tests.World :=
  sample_world "Windows" {[ "USERNAME" := "ci" ]} (Some 2020)
    "C:\ci\maya-tests" "C:\Temp" (Return 0).

Definition windows_fs : os.FS :=
  [ ("C:/Program Files/Autodesk/Maya2020", os.Dir false []);
    ("C:\Temp", os.Dir false []);
    ("C:\ci\maya-tests\clean_maya_app_dir", sample_prefs true) ].

Definition windows_proc : run_tests.Proc :=
  {| run_tests.fs := windows_fs; run_tests.spawned := [] |}.

Definition sample_host (tests : list suite.test) : suite.Host :=
  {| suite.script_dir := "/repo/maya-tests";
     suite.platform_system := "Linux";
     suite.initialize_fails := None;
     suite.uninitialize_fails := None;
     suite.discoverable := fun _ => tests |}.

(** *** Further sample machines and hosts *)

(** The Linux machine with a child that deletes the preferences directory
    it was given before it exits with 0. *)
Definition linux_world_child_cleans : run_tests.World :=
  {| run_tests.platform_system := "Linux";
     run_tests.os_environ := {[ "HOME" := "/home/ci" ]};
     run_tests.argv_maya := None;
     run_tests.script_dir := "/repo/maya-tests";
     run_tests.tempfile_gettempdir := "/tmp";
     run_tests.uuid_uuid4 := "0b1e4c1e-58b3-4f4e-9a55-5d3c1b1f2a10";
     run_tests.child_returncode := Return 0;
     run_tests.child_writes := fun _ => linux_fs |}.

(** The Linux machine whose interpreter binary cannot be started. *)
Definition linux_world_no_binary : run_tests.World :=
  sample_world "Linux" {[ "HOME" := "/home/ci" ]} None "/repo/maya-tests" "/tmp"
    (Raise (OSError ENOENT "/usr/autodesk/maya2020/bin/mayapy")).

(** The Linux filesystem with something already at the path of the
    preferences directory. *)
Definition linux_fs_with (stale : os.tree) : os.FS :=
  ("/tmp/maya_app_dir0b1e4c1e-58b3-4f4e-9a55-5d3c1b1f2a10", stale) :: linux_fs.

(** A checkout without the bundled preferences. *)
Definition linux_fs_no_bundle : os.FS :=
  [ ("/usr/autodesk/maya2020", os.Dir false []);
    ("/tmp", os.Dir false []) ].

(** A host whose runtime fails to start, or to shut down. *)
Definition faulty_host (start stop : option exn) (tests : list suite.test)
    : suite.Host :=
  {| suite.script_dir := "/repo/maya-tests";
     suite.platform_system := "Linux";
     suite.initialize_fails := start;
     suite.uninitialize_fails := stop;
     suite.discoverable := fun _ => tests |}.

(** The exceptions the filesystem operations raise. *)
Definition is_OSError (e : exn) : Prop := ∃ n filename, e = OSError n filename.

(** The two exceptions [remove_read_only] can turn a failed removal into. *)
Definition is_handler_error (e : exn) : Prop :=
  e = NameError "errno" ∨ ∃ path, e = RuntimeError ("Could not remove " +:+ path).

(* ===================================================================== *)
(** ** Properties                                                        *)
(* ===================================================================== *)

(** *** Strings and paths *)

Lemma append_cons (x : ascii) (a b : string) : String x a +:+ b = String x (a +:+ b).
Proof. reflexivity. Qed.

Lemma append_nil (b : string) : "" +:+ b = b.
Proof. reflexivity. Qed.

Lemma append_assoc (a b c : string) : (a +:+ b) +:+ c = a +:+ (b +:+ c).
Proof. induction a as [|x a IH]; [done | by rewrite !append_cons, IH]. Qed.

Lemma append_length (a b : string) :
  String.length (a +:+ b) = (String.length a + String.length b)%nat.
Proof.
  induction a as [|x a IH]; [done | rewrite append_cons; simpl; by rewrite IH].
Qed.

Lemma append_inj_r (a b c : string) : a +:+ b = a +:+ c -> b = c.
Proof.
  induction a as [|x a IH]; [done | rewrite !append_cons; intros H; injection H; auto].
Qed.

Lemma ntpath_splitdrive_app (a : string) :
  a = (os.ntpath_splitdrive a).1 +:+ (os.ntpath_splitdrive a).2.
Proof.
  destruct a as [|x [|y a]]; try reflexivity.
  destruct y as [[] [] [] [] [] [] [] []]; reflexivity.
Qed.

Lemma prefix_slash (c : ascii) (b : string) :
  c ≠ "/"%char -> String.prefix "/" (String c b) = false.
Proof.
  intros Hc.
  change (String.prefix "/" (String c b))
    with (if ascii_dec "/"%char c then String.prefix "" b else false).
  destruct (ascii_dec "/"%char c); [by subst | reflexivity].
Qed.

(** Joining a path with a plain name appends to the path: at most a
    separator that depends on the path alone, then the name. *)
Lemma path_join_name (system a : string) :
  ∃ sep, sep ∈ [""; "/"; "\"] ∧ ∀ c b, c ≠ "/"%char ->
    os.path_join system a (String c b) = a +:+ sep +:+ String c b.
Proof.
  unfold os.path_join. destruct (String.eqb system "Windows").
  - unfold os.ntpath_join.
    destruct (os.ntpath_splitdrive a) as [drive path] eqn:Hsplit.
    pose proof (ntpath_splitdrive_app a) as Ha. rewrite Hsplit in Ha.
    destruct (bool_decide (path = "") || os.is_char_in _ (os.last_char path)).
    + exists "". split; [by repeat constructor|].
      intros c b _. by rewrite Ha, append_assoc.
    + exists "\". split; [by repeat constructor|].
      intros c b _. by rewrite Ha, !append_assoc.
  - unfold os.posixpath_join.
    destruct (bool_decide (a = "") || os.is_char_in _ (os.last_char a)).
    + exists "". split; [by repeat constructor|].
      intros c b Hc. by rewrite prefix_slash.
    + exists "/". split; [by repeat constructor|].
      intros c b Hc. by rewrite prefix_slash.
Qed.

(** *** The monad *)

Lemma in_fs_ret {A} (m : M os.FS A) (s : run_tests.Proc) (a : outcome A) (fs' : os.FS) :
  m (run_tests.fs s) = (a, fs') ->
  run_tests.in_fs m s = (a, {| run_tests.fs := fs'; run_tests.spawned := run_tests.spawned s |}).
Proof. unfold run_tests.in_fs. by intros ->. Qed.

(** *** Locating the interpreter *)

Lemma candidate_location_some (w : run_tests.World) (v : Z) :
  is_Some (run_tests.candidate_location w v).
Proof.
  unfold run_tests.candidate_location.
  destruct (run_tests.os_environ w !! "MAYA_LOCATION"); [by eexists|].
  destruct (String.eqb _ "Windows"); [by eexists|].
  destruct (String.eqb _ "Darwin"); by eexists.
Qed.

Lemma get_maya_location_found (w : run_tests.World) (v : Z) (fs : os.FS) (location : string) :
  run_tests.candidate_location w v = Some location ->
  is_Some (os.find (run_tests.platform_system w) fs location) ->
  run_tests.get_maya_location w v fs = (Return location, fs).
Proof.
  intros Hc Hf. unfold run_tests.get_maya_location. rewrite Hc.
  unfold bind, os.path_exists. by rewrite bool_decide_true.
Qed.

Lemma get_maya_location_missing (w : run_tests.World) (v : Z) (fs : os.FS) (location : string) :
  run_tests.candidate_location w v = Some location ->
  os.find (run_tests.platform_system w) fs location = None ->
  run_tests.get_maya_location w v fs = (Raise (run_tests.not_installed v), fs).
Proof.
  intros Hc Hf. unfold run_tests.get_maya_location. rewrite Hc.
  unfold bind, os.path_exists. rewrite bool_decide_false; [done|].
  rewrite Hf. by intros [? ?].
Qed.

Lemma get_maya_location_fs (w : run_tests.World) (v : Z) (fs : os.FS) :
  (run_tests.get_maya_location w v fs).2 = fs.
Proof.
  destruct (candidate_location_some w v) as [location Hc].
  destruct (os.find (run_tests.platform_system w) fs location) eqn:Hf.
  - by rewrite (get_maya_location_found w v fs location).
  - by rewrite (get_maya_location_missing w v fs location).
Qed.

Lemma get_mayapy_executable_fs (w : run_tests.World) (v : Z) (fs : os.FS) :
  (run_tests.get_mayapy_executable w v fs).2 = fs.
Proof.
  unfold run_tests.get_mayapy_executable, bind.
  pose proof (get_maya_location_fs w v fs) as H.
  destruct (run_tests.get_maya_location w v fs) as [[location|e] fs']; simpl in *; by subst.
Qed.

Lemma get_mayapy_executable_found (w : run_tests.World) (v : Z) (fs : os.FS) (location : string) :
  run_tests.candidate_location w v = Some location ->
  is_Some (os.find (run_tests.platform_system w) fs location) ->
  run_tests.get_mayapy_executable w v fs =
    (Return (if String.eqb (run_tests.platform_system w) "Windows"
             then location +:+ "/bin/mayapy.exe" else location +:+ "/bin/mayapy"), fs).
Proof.
  intros Hc Hf. unfold run_tests.get_mayapy_executable, bind.
  rewrite (get_maya_location_found w v fs location Hc Hf). unfold ret.
  destruct (String.eqb _ _); [|done]. by rewrite append_assoc.
Qed.

(** C6. [get_maya_location] always has a candidate location; it raises the
    [RuntimeError] whose message names the Maya version exactly when that
    location is not on the filesystem, raises nothing else, and returns the
    location unchanged when it is there. *)
Theorem get_maya_location_raises_iff_missing (w : run_tests.World) (v : Z) (fs : os.FS) :
  ∃ location,
    run_tests.candidate_location w v = Some location ∧
    (os.find (run_tests.platform_system w) fs location = None <->
     (run_tests.get_maya_location w v fs).1 =
       Raise (RuntimeError ("Maya " +:+ str_int v +:+ " is not installed on this system."))) ∧
    (os.find (run_tests.platform_system w) fs location = None <->
     ∃ e, (run_tests.get_maya_location w v fs).1 = Raise e) ∧
    (is_Some (os.find (run_tests.platform_system w) fs location) ->
     run_tests.get_maya_location w v fs = (Return location, fs)).
Proof.
  destruct (candidate_location_some w v) as [location Hc].
  exists location. split; [done|].
  destruct (os.find (run_tests.platform_system w) fs location) as [t|] eqn:Hf.
  - assert (is_Some (os.find (run_tests.platform_system w) fs location)) as Hs
      by (rewrite Hf; by eexists).
    rewrite (get_maya_location_found w v fs location Hc Hs). simpl.
    repeat split; try done. by intros [e ?].
  - rewrite (get_maya_location_missing w v fs location Hc Hf). simpl.
    repeat split; try done. intros _. by eexists.
Qed.

Lemma get_maya_location_raises_iff_missing_witness :
  run_tests.get_maya_location linux_world 2020 linux_fs
    = (Return "/usr/autodesk/maya2020", linux_fs) ∧
  (run_tests.get_maya_location linux_world 2019 linux_fs).1
    = Raise (RuntimeError "Maya 2019 is not installed on this system.").
Proof.
  split.
  - destruct (get_maya_location_raises_iff_missing linux_world 2020 linux_fs)
      as (location & Hc & _ & _ & Hfound).
    vm_compute in Hc. injection Hc as <-. apply Hfound. vm_compute. by eexists.
  - destruct (get_maya_location_raises_iff_missing linux_world 2019 linux_fs)
      as (location & Hc & Hmissing & _).
    vm_compute in Hc. injection Hc as <-. apply Hmissing. vm_compute. reflexivity.
Defined.

(** C5. The interpreter path per platform, for every Maya version [v] and
    whenever the location it is built on is on the filesystem: with
    [MAYA_LOCATION] set, the location is that value, whatever the platform;
    without it, the path is the Windows, Darwin or other-system default,
    the last with the [-x64] suffix exactly when [v < 2016]. *)
Theorem mayapy_executable_per_platform (w : run_tests.World) (v : Z) (fs : os.FS) :
  let system := run_tests.platform_system w in
  let installed location := is_Some (os.find system fs location) in
  let exe := (run_tests.get_mayapy_executable w v fs).1 in
  (∀ location,
     run_tests.os_environ w !! "MAYA_LOCATION" = Some location ->
     installed location ->
     (run_tests.get_maya_location w v fs).1 = Return location ∧
     exe = Return (location +:+ "/bin/mayapy"
                   +:+ (if String.eqb system "Windows" then ".exe" else ""))) ∧
  (run_tests.os_environ w !! "MAYA_LOCATION" = None ->
     (system = "Windows" ->
      installed ("C:/Program Files/Autodesk/Maya" +:+ str_int v) ->
      exe = Return ("C:/Program Files/Autodesk/Maya" +:+ str_int v +:+ "/bin/mayapy.exe")) ∧
     (system = "Darwin" ->
      installed ("/Applications/Autodesk/maya" +:+ str_int v +:+ "/Maya.app/Contents") ->
      exe = Return ("/Applications/Autodesk/maya" +:+ str_int v
                    +:+ "/Maya.app/Contents/bin/mayapy")) ∧
     (system ≠ "Windows" -> system ≠ "Darwin" -> v < 2016 ->
      installed ("/usr/autodesk/maya" +:+ str_int v +:+ "-x64") ->
      exe = Return ("/usr/autodesk/maya" +:+ str_int v +:+ "-x64/bin/mayapy")) ∧
     (system ≠ "Windows" -> system ≠ "Darwin" -> 2016 <= v ->
      installed ("/usr/autodesk/maya" +:+ str_int v) ->
      exe = Return ("/usr/autodesk/maya" +:+ str_int v +:+ "/bin/mayapy"))).
Proof.
  intros system installed exe. subst installed exe. split.
  - intros location Henv Hin.
    assert (run_tests.candidate_location w v = Some location) as Hc
      by (unfold run_tests.candidate_location; by rewrite Henv).
    rewrite (get_maya_location_found w v fs location Hc Hin).
    rewrite (get_mayapy_executable_found w v fs location Hc Hin). simpl.
    split; [done|]. fold system. by destruct (String.eqb system "Windows").
  - intros Henv. repeat split.
    + intros Hsys Hin.
      rewrite (get_mayapy_executable_found w v fs _) with (2 := Hin).
      * fold system. rewrite Hsys. simpl. by rewrite !append_assoc.
      * unfold run_tests.candidate_location. rewrite Henv. fold system. by rewrite Hsys.
    + intros Hsys Hin.
      rewrite (get_mayapy_executable_found w v fs _) with (2 := Hin).
      * fold system. rewrite Hsys. simpl. by rewrite !append_assoc.
      * unfold run_tests.candidate_location. rewrite Henv. fold system. by rewrite Hsys.
    + intros Hwin Hdar Hv Hin.
      apply String.eqb_neq in Hwin, Hdar.
      rewrite (get_mayapy_executable_found w v fs _) with (2 := Hin).
      * fold system. rewrite Hwin. simpl. by rewrite !append_assoc.
      * unfold run_tests.candidate_location. rewrite Henv. fold system.
        rewrite Hwin, Hdar. apply Z.ltb_lt in Hv. by rewrite Hv.
    + intros Hwin Hdar Hv Hin.
      apply String.eqb_neq in Hwin, Hdar.
      rewrite (get_mayapy_executable_found w v fs _) with (2 := Hin).
      * fold system. by rewrite Hwin.
      * unfold run_tests.candidate_location. rewrite Henv. fold system.
        rewrite Hwin, Hdar. apply Z.ltb_ge in Hv. by rewrite Hv.
Qed.

Lemma mayapy_executable_per_platform_witness :
  (run_tests.get_mayapy_executable linux_world_override 2020 linux_fs).1
    = Return "/opt/maya/bin/mayapy" ∧
  (run_tests.get_mayapy_executable windows_world 2020 windows_fs).1
    = Return "C:/Program Files/Autodesk/Maya2020/bin/mayapy.exe" ∧
  (run_tests.get_mayapy_executable darwin_world 2020 darwin_fs).1
    = Return "/Applications/Autodesk/maya2020/Maya.app/Contents/bin/mayapy" ∧
  (run_tests.get_mayapy_executable linux_world 2015 linux_fs).1
    = Return "/usr/autodesk/maya2015-x64/bin/mayapy" ∧
  (run_tests.get_mayapy_executable linux_world 2020 linux_fs).1
    = Return "/usr/autodesk/maya2020/bin/mayapy".
Proof.
  split; [|split; [|split; [|split]]].
  - destruct (mayapy_executable_per_platform linux_world_override 2020 linux_fs)
      as [Hset _].
    destruct (Hset "/opt/maya") as [_ Hexe].
    + reflexivity.
    + vm_compute. by eexists.
    + exact Hexe.
  - destruct (mayapy_executable_per_platform windows_world 2020 windows_fs)
      as [_ Hunset].
    destruct (Hunset eq_refl) as (Hwin & _). apply Hwin.
    + reflexivity.
    + vm_compute. by eexists.
  - destruct (mayapy_executable_per_platform darwin_world 2020 darwin_fs)
      as [_ Hunset].
    destruct (Hunset eq_refl) as (_ & Hmac & _). apply Hmac.
    + reflexivity.
    + vm_compute. by eexists.
  - destruct (mayapy_executable_per_platform linux_world 2015 linux_fs)
      as [_ Hunset].
    destruct (Hunset eq_refl) as (_ & _ & Hold & _). apply Hold.
    + discriminate.
    + discriminate.
    + lia.
    + vm_compute. by eexists.
  - destruct (mayapy_executable_per_platform linux_world 2020 linux_fs)
      as [_ Hunset].
    destruct (Hunset eq_refl) as (_ & _ & _ & Hnew). apply Hnew.
    + discriminate.
    + discriminate.
    + lia.
    + vm_compute. by eexists.
Defined.

(** *** The error handler *)

(** C9, as the code has it.  Every invocation of [remove_read_only] raises
    and leaves the filesystem as it was, so no [chmod] and no second attempt
    ever happens: for [os.rmdir] and [os.remove] with the [OSError] that
    [shutil.rmtree] hands over, it is the [NameError] for [errno]; for any
    other function it is the [RuntimeError] of the [else] branch. *)
Theorem remove_read_only_always_raises (w : run_tests.World) (func : os.func)
    (path : string) (exc : exc_info) (fs : os.FS) :
  ∃ e,
    run_tests.remove_read_only w func path exc fs = (Raise e, fs) ∧
    (func ∈ [os.f_rmdir; os.f_remove] ->
     ∀ n filename, exc_value exc = OSError n filename -> e = NameError "errno") ∧
    (func ∉ [os.f_rmdir; os.f_remove] ->
     e = RuntimeError ("Could not remove " +:+ path)).
Proof.
  unfold run_tests.remove_read_only, bind.
  destruct (decide (func ∈ [os.f_rmdir; os.f_remove])) as [Hin|Hout].
  - rewrite (bool_decide_true _ Hin).
    destruct (exc_value exc) as [| | |n filename| |] eqn:Hv; simpl;
      (eexists; split; [reflexivity|]; split; [|done]);
      intros _ n' filename' Heq; try discriminate Heq; reflexivity.
  - rewrite (bool_decide_false _ Hout). simpl.
    eexists; split; [reflexivity|]. split; [done|reflexivity].
Qed.

Lemma remove_read_only_always_raises_witness :
  run_tests.remove_read_only windows_world os.f_remove "C:\Temp\prefs.mel"
      (sys_exc_info (OSError EACCES "C:\Temp\prefs.mel")) windows_fs
    = (Raise (NameError "errno"), windows_fs) ∧
  run_tests.remove_read_only windows_world os.f_listdir "C:\Temp\gone"
      (sys_exc_info (OSError ENOENT "C:\Temp\gone")) windows_fs
    = (Raise (RuntimeError "Could not remove C:\Temp\gone"), windows_fs).
Proof.
  split.
  - destruct (remove_read_only_always_raises windows_world os.f_remove "C:\Temp\prefs.mel"
                (sys_exc_info (OSError EACCES "C:\Temp\prefs.mel")) windows_fs)
      as (e & Hrun & Hname & _).
    rewrite Hrun. f_equal. f_equal.
    apply (Hname (proj2 (elem_of_cons _ _ _) (or_intror (list_elem_of_here _ _)))
             EACCES "C:\Temp\prefs.mel").
    reflexivity.
  - destruct (remove_read_only_always_raises windows_world os.f_listdir "C:\Temp\gone"
                (sys_exc_info (OSError ENOENT "C:\Temp\gone")) windows_fs)
      as (e & Hrun & _ & Hother).
    rewrite Hrun. f_equal. f_equal.
    apply Hother. rewrite !not_elem_of_cons.
    split; [discriminate | split; [discriminate | apply not_elem_of_nil]].
Defined.

(** C9, as stated, fails: called with [os.listdir], the function
    [shutil.rmtree] reports when it cannot list a directory, the handler
    raises a [RuntimeError], not a [NameError]. *)
Lemma remove_read_only_not_always_NameError :
  ¬ (∀ (w : run_tests.World) (func : os.func) (path : string) (exc : exc_info)
       (fs : os.FS),
       ∃ name, (run_tests.remove_read_only w func path exc fs).1 = Raise (NameError name)).
Proof.
  intros H.
  destruct (H linux_world os.f_listdir "/tmp/maya_app_dir"
              (sys_exc_info (OSError ENOENT "/tmp/maya_app_dir")) linux_fs)
    as [name Hname].
  vm_compute in Hname. discriminate Hname.
Qed.

(** *** suite.py *)

Lemma bool_of_list_true {A} (l : list A) : suite.bool_of_list l = true <-> l ≠ [].
Proof. destruct l; simpl; split; congruence. Qed.

(** C4. When the host runtime starts and shuts down, [main] returns a
    boolean that is [True] exactly when the run recorded at least one
    error, and the script exits with status 1 in that case and 0 otherwise. *)
Theorem suite_main_returns_had_errors (h : suite.Host) (s : suite.runtime) :
  suite.initialize_fails h = None ->
  suite.uninitialize_fails h = None ->
  ∃ result b,
    (suite.run (suite.discoverable h (suite.TEST_DIR h)) suite.Standalone).1
      = Return result ∧
    suite.main h s = (Return b, suite.ShutDown) ∧
    (b = true <-> (0 < length (suite.errors result))%nat) ∧
    exit_status (suite.script h s).1 = (if b then 1 else 0).
Proof.
  intros Hinit Hquit.
  eexists. exists (suite.bool_of_list (suite.ids_with suite.Errored
                     (suite.discoverable h (suite.TEST_DIR h)))).
  split; [reflexivity|].
  assert (suite.main h s =
          (Return (suite.bool_of_list (suite.ids_with suite.Errored
                     (suite.discoverable h (suite.TEST_DIR h)))), suite.ShutDown)) as Hmain.
  { unfold suite.main, suite.mayapy_session, suite.session_setup,
      suite.session_teardown, suite.discover, suite.run, bind, ret.
    by rewrite Hinit, Hquit. }
  split; [exact Hmain|]. split.
  - simpl. rewrite bool_of_list_true.
    destruct (suite.ids_with _ _); simpl; split; (congruence || lia).
  - unfold suite.script, bind. rewrite Hmain. reflexivity.
Qed.

Lemma suite_main_returns_had_errors_witness :
  suite.main (sample_host [("test_rig.test_build", suite.Errored);
                           ("test_rig.test_names", suite.Passed)]) suite.NotStarted
    = (Return true, suite.ShutDown) ∧
  exit_status (suite.script (sample_host [("test_rig.test_names", suite.Passed)])
                 suite.NotStarted).1 = 0.
Proof.
  split.
  - destruct (suite_main_returns_had_errors
                (sample_host [("test_rig.test_build", suite.Errored);
                              ("test_rig.test_names", suite.Passed)])
                suite.NotStarted eq_refl eq_refl)
      as (result & b & Hrun & Hmain & Hb & _).
    rewrite Hmain. f_equal. f_equal. apply Hb.
    vm_compute in Hrun. injection Hrun as <-. simpl. lia.
  - destruct (suite_main_returns_had_errors
                (sample_host [("test_rig.test_names", suite.Passed)])
                suite.NotStarted eq_refl eq_refl)
      as (result & b & Hrun & _ & Hb & Hexit).
    rewrite Hexit. destruct b; [|reflexivity].
    vm_compute in Hrun. injection Hrun as <-.
    destruct Hb as [Hb _]. specialize (Hb eq_refl). simpl in Hb. lia.
Defined.

(** *** The launcher's [main] *)

(** The environment [main] builds for the child (lines 36-54). *)
Lemma dict_update_three (d : gmap string string) (k1 k2 k3 v1 v2 v3 : string) :
  dict_update d [(k1, v1); (k2, v2); (k3, v3)] = <[k3:=v3]> (<[k2:=v2]> (<[k1:=v1]> d)).
Proof. reflexivity. Qed.

(** Once the interpreter is located and the preferences are in place,
    [main] spawns the child, and what it ends with is decided by the
    child's return code and by the removal of the preferences. *)
Lemma main_after_setup (w : run_tests.World) (s : run_tests.Proc)
    (exe dir : string) (fs1 : os.FS) :
  (run_tests.get_mayapy_executable w (default 2020 (run_tests.argv_maya w))
     (run_tests.fs s)).1 = Return exe ->
  run_tests.create_clean_maya_app_dir w (run_tests.fs s) = (Return dir, fs1) ->
  let system := run_tests.platform_system w in
  let command := [exe; os.path_join system (run_tests.CURRENT_DIR w) "suite.py"] in
  let env :=
    dict_update (run_tests.os_environ w)
      [ ("MAYA_APP_DIR", dir); ("MAYA_SCRIPT_PATH", "");
        ("MAYA_MODULE_PATH",
         str_join ";" [run_tests.PARENT_REPO_MODULE_PATH w; run_tests.CURRENT_DIR w]) ] in
  let body : outcome unit :=
    match run_tests.child_returncode w with
    | Return rc => Raise (SystemExit (ExitInt rc))
    | Raise (CalledProcessError _) => Return tt
    | Raise e => Raise e
    end in
  let cleanup := shutil.rmtree system dir None (run_tests.child_writes w fs1) in
  run_tests.main w s =
    (match cleanup.1 with Return _ => body | Raise e => Raise e end,
     {| run_tests.fs := cleanup.2;
        run_tests.spawned := run_tests.spawned s ++ [(command, env)] |}).
Proof.
  intros Hexe Hdir system command env body cleanup.
  pose proof (get_mayapy_executable_fs w (default 2020 (run_tests.argv_maya w))
                (run_tests.fs s)) as Hfs.
  destruct (run_tests.get_mayapy_executable w _ (run_tests.fs s)) as [r fs0] eqn:Hrun.
  simpl in Hexe, Hfs. subst r fs0.
  unfold run_tests.main, bind at 1.
  rewrite (in_fs_ret (run_tests.get_mayapy_executable w _) s _ _ Hrun).
  destruct s as [fs0 log]. simpl in *.
  unfold bind at 1.
  rewrite (in_fs_ret (run_tests.create_clean_maya_app_dir w)
             {| run_tests.fs := fs0; run_tests.spawned := log |} _ _ Hdir). simpl.
  unfold try_finally, try_except, bind, run_tests.call, sys_exit, raise, ret,
    run_tests.in_fs. simpl.
  subst body cleanup system. cbn [run_tests.fs run_tests.spawned].
  destruct (run_tests.child_returncode w) as [rc|[]];
    cbn [run_tests.fs run_tests.spawned fst snd];
    destruct (shutil.rmtree (run_tests.platform_system w) dir None
                (run_tests.child_writes w fs1)) as [[[]|e] fs3];
    reflexivity.
Qed.

(** C3. Whatever integer the child process returns, [main] ends in
    [sys.exit] with exactly that integer, and it is the launcher's exit
    code, provided the temporary directory is removed without an error. *)
Theorem main_forwards_child_exit_code (w : run_tests.World) (s : run_tests.Proc)
    (exe dir : string) (fs1 fs2 : os.FS) (rc : Z) :
  (run_tests.get_mayapy_executable w (default 2020 (run_tests.argv_maya w))
     (run_tests.fs s)).1 = Return exe ->
  run_tests.create_clean_maya_app_dir w (run_tests.fs s) = (Return dir, fs1) ->
  run_tests.child_returncode w = Return rc ->
  shutil.rmtree (run_tests.platform_system w) dir None (run_tests.child_writes w fs1)
    = (Return tt, fs2) ->
  (run_tests.main w s).1 = Raise (SystemExit (ExitInt rc)) ∧
  launcher_exit_code w s = rc ∧
  run_tests.fs (run_tests.main w s).2 = fs2.
Proof.
  intros Hexe Hdir Hrc Hclean. unfold launcher_exit_code.
  rewrite (main_after_setup w s exe dir fs1 Hexe Hdir). cbv zeta.
  rewrite Hclean, Hrc. by simpl.
Qed.

Lemma main_forwards_child_exit_code_witness :
  launcher_exit_code
    (sample_world "Linux" ∅ None "/repo/maya-tests" "/tmp" (Return 3)) linux_proc = 3.
Proof.
  eapply (main_forwards_child_exit_code
            (sample_world "Linux" ∅ None "/repo/maya-tests" "/tmp" (Return 3))
            linux_proc).
  - vm_compute. reflexivity.
  - vm_compute. reflexivity.
  - reflexivity.
  - vm_compute. reflexivity.
Defined.

(** C8. The child receives the launcher's environment with three
    variables set: [MAYA_APP_DIR] to the fresh preferences directory,
    [MAYA_SCRIPT_PATH] to the empty string, and [MAYA_MODULE_PATH]; every
    other variable is as the launcher had it. *)
Theorem child_environment (w : run_tests.World) (s : run_tests.Proc)
    (exe dir : string) (fs1 : os.FS) :
  (run_tests.get_mayapy_executable w (default 2020 (run_tests.argv_maya w))
     (run_tests.fs s)).1 = Return exe ->
  run_tests.create_clean_maya_app_dir w (run_tests.fs s) = (Return dir, fs1) ->
  ∃ command env,
    run_tests.spawned (run_tests.main w s).2 = (run_tests.spawned s ++ [(command, env)])%list ∧
    env !! "MAYA_APP_DIR" = Some dir ∧
    env !! "MAYA_SCRIPT_PATH" = Some "" ∧
    env !! "MAYA_MODULE_PATH" =
      Some (str_join ";" [run_tests.PARENT_REPO_MODULE_PATH w; run_tests.CURRENT_DIR w]) ∧
    ∀ k, k ∉ ["MAYA_APP_DIR"; "MAYA_SCRIPT_PATH"; "MAYA_MODULE_PATH"] ->
         env !! k = run_tests.os_environ w !! k.
Proof.
  intros Hexe Hdir.
  rewrite (main_after_setup w s exe dir fs1 Hexe Hdir). cbv zeta.
  do 2 eexists. split; [reflexivity|]. rewrite dict_update_three.
  split; [|split; [|split]].
  - rewrite lookup_insert_ne by done. rewrite lookup_insert_ne by done.
    apply lookup_insert_eq.
  - rewrite lookup_insert_ne by done. apply lookup_insert_eq.
  - apply lookup_insert_eq.
  - intros k Hk. rewrite !not_elem_of_cons in Hk. destruct Hk as (H1 & H2 & H3 & _).
    by rewrite !lookup_insert_ne.
Qed.

Lemma child_environment_witness :
  ∃ command env,
    run_tests.spawned (run_tests.main linux_world linux_proc).2 = [(command, env)] ∧
    env !! "MAYA_APP_DIR" = Some "/tmp/maya_app_dir0b1e4c1e-58b3-4f4e-9a55-5d3c1b1f2a10" ∧
    env !! "MAYA_SCRIPT_PATH" = Some "" ∧
    env !! "HOME" = Some "/home/ci".
Proof.
  destruct (child_environment linux_world linux_proc
              "/usr/autodesk/maya2020/bin/mayapy"
              "/tmp/maya_app_dir0b1e4c1e-58b3-4f4e-9a55-5d3c1b1f2a10"
              (("/tmp/maya_app_dir0b1e4c1e-58b3-4f4e-9a55-5d3c1b1f2a10",
                sample_prefs false) :: linux_fs))
    as (command & env & Hspawn & Hdir & Hscript & _ & Hrest).
  - vm_compute. reflexivity.
  - vm_compute. reflexivity.
  - exists command, env. split; [exact Hspawn|]. split; [exact Hdir|].
    split; [exact Hscript|]. rewrite Hrest; [reflexivity|].
    rewrite !not_elem_of_cons.
    split; [discriminate | split; [discriminate | split; [discriminate | apply not_elem_of_nil]]].
Defined.

(** C10. On every platform, the [MAYA_MODULE_PATH] given to the child is
    the parent repository's module directory, a semicolon, and the
    directory of the scripts. *)
Theorem module_path_joined_with_semicolon (w : run_tests.World) (s : run_tests.Proc)
    (exe dir : string) (fs1 : os.FS) :
  (run_tests.get_mayapy_executable w (default 2020 (run_tests.argv_maya w))
     (run_tests.fs s)).1 = Return exe ->
  run_tests.create_clean_maya_app_dir w (run_tests.fs s) = (Return dir, fs1) ->
  ∃ command env,
    run_tests.spawned (run_tests.main w s).2 = (run_tests.spawned s ++ [(command, env)])%list ∧
    env !! "MAYA_MODULE_PATH" =
      Some (run_tests.PARENT_REPO_MODULE_PATH w +:+ ";" +:+ run_tests.CURRENT_DIR w).
Proof.
  intros Hexe Hdir.
  rewrite (main_after_setup w s exe dir fs1 Hexe Hdir). cbv zeta.
  do 2 eexists. split; [reflexivity|]. rewrite dict_update_three.
  apply lookup_insert_eq.
Qed.

Lemma module_path_joined_with_semicolon_witness :
  (∃ command env,
     run_tests.spawned (run_tests.main linux_world linux_proc).2 = [(command, env)] ∧
     env !! "MAYA_MODULE_PATH" = Some "/repo/maya-tests/../modules;/repo/maya-tests") ∧
  (∃ command env,
     run_tests.spawned (run_tests.main windows_world windows_proc).2 = [(command, env)] ∧
     env !! "MAYA_MODULE_PATH" = Some "C:\ci\maya-tests\..\modules;C:\ci\maya-tests").
Proof.
  split.
  - eapply (module_path_joined_with_semicolon linux_world linux_proc).
    + vm_compute. reflexivity.
    + vm_compute. reflexivity.
  - eapply (module_path_joined_with_semicolon windows_world windows_proc).
    + vm_compute. reflexivity.
    + vm_compute. reflexivity.
Defined.

(** *** The two defects, run on sample machines *)

(** C1, on a run whose only test fails an assertion: the suite was not
    successful, yet suite.py exits with 0 and so does the launcher. *)
Theorem failed_assertion_exits_zero :
  let h := sample_host [("test_rig.TestRig.test_build", suite.Failed)] in
  ∃ result,
    (suite.run (suite.discoverable h (suite.TEST_DIR h)) suite.Standalone).1
      = Return result ∧
    suite.failures result = ["test_rig.TestRig.test_build"] ∧
    suite.errors result = [] ∧
    suite.wasSuccessful result = false ∧
    exit_status (suite.script h suite.NotStarted).1 = 0 ∧
    launcher_exit_code (with_suite linux_world h) linux_proc = 0.
Proof.
  eexists. split; [reflexivity|]. vm_compute. by repeat split.
Qed.

(** C2, on a Windows machine whose preferences hold a read-only file and
    whose child exits with 0: the removal in [finally] raises, [main] ends
    with that [OSError] instead of [SystemExit(0)], the launcher's exit
    code is 1, and the temporary directory is still there. *)
Theorem cleanup_failure_aborts_launcher :
  let dir := "C:\Temp\maya_app_dir0b1e4c1e-58b3-4f4e-9a55-5d3c1b1f2a10" in
  run_tests.child_returncode windows_world = Return 0 ∧
  (run_tests.main windows_world windows_proc).1
    = Raise (OSError EACCES (dir +:+ "\prefs\userPrefs.mel")) ∧
  launcher_exit_code windows_world windows_proc = 1 ∧
  os.find "Windows" (run_tests.fs (run_tests.main windows_world windows_proc).2) dir
    = Some (sample_prefs true).
Proof. vm_compute. by repeat split. Qed.

(** *** The preferences directory *)

Lemma path_join_empty (system b : string) : os.path_join system "" b = b.
Proof.
  unfold os.path_join, os.ntpath_join, os.posixpath_join. simpl.
  destruct (String.eqb system "Windows"); [reflexivity|].
  by destruct (String.prefix "/" b).
Qed.

Lemma find_cons (system : string) (root : string) (t : os.tree) (fs : os.FS) (p : string) :
  p ≠ "" ->
  os.find system ((root, t) :: fs) p =
    match os.find_tree system root t p with
    | Some r => Some r
    | None => os.find system fs p
    end.
Proof.
  intros Hp. unfold os.find.
  assert (String.eqb p "" = false) as -> by by apply String.eqb_neq.
  assert (String.eqb "" p = false) as Hq by (apply String.eqb_neq; congruence).
  cbn [os.find_tree]. rewrite Hq, path_join_empty. reflexivity.
Qed.

Lemma find_tree_root (system : string) (root : string) (t : os.tree) :
  os.find_tree system root t root = Some t.
Proof. destruct t; cbn [os.find_tree]; by rewrite String.eqb_refl. Qed.

Lemma find_tree_empty_dir (system : string) (root p : string) (ro : bool) :
  root ≠ p -> os.find_tree system root (os.Dir ro []) p = None.
Proof.
  intros Hne. cbn [os.find_tree].
  by assert (String.eqb root p = false) as -> by by apply String.eqb_neq.
Qed.

(** A plain name joined to a path gives a longer path. *)
Lemma path_join_name_longer (system a : string) (c : ascii) (b : string) :
  c ≠ "/"%char ->
  (String.length a < String.length (os.path_join system a (String c b)))%nat.
Proof.
  intros Hc. destruct (path_join_name system a) as (sep & _ & Hsep).
  rewrite (Hsep c b Hc), !append_length. simpl. lia.
Qed.

Lemma bind_assoc {S A B C} (m : M S A) (f : A -> M S B) (g : B -> M S C) (s : S) :
  bind (bind m f) g s = bind m (fun a => bind (f a) g) s.
Proof. unfold bind. by destruct (m s) as [[a|e] s']. Qed.

(** C7. With the bundled preferences in place, a usable temporary
    directory and a UUID whose path is not taken yet,
    [create_clean_maya_app_dir] returns the path made of the temporary
    directory and the name [maya_app_dir] followed by the UUID, and
    afterwards that path holds a copy of the bundled tree; runs that draw
    different UUIDs get different paths. *)
Theorem create_clean_maya_app_dir_fresh_copy (w : run_tests.World) (fs0 : os.FS)
    (ro : bool) (entries : list (string * os.tree)) :
  let system := run_tests.platform_system w in
  let temp_dir := run_tests.tempfile_gettempdir w in
  let name := "maya_app_dir" +:+ run_tests.uuid_uuid4 w in
  let maya_app_dir := os.path_join system temp_dir name in
  temp_dir ≠ "" ->
  os.find system fs0 (os.path_join system (run_tests.CURRENT_DIR w) "clean_maya_app_dir")
    = Some (os.Dir ro entries) ->
  os.find system fs0 maya_app_dir = None ->
  (∃ sep, sep ∈ [""; "/"; "\"] ∧ maya_app_dir = temp_dir +:+ sep +:+ name) ∧
  (∃ fs1,
     run_tests.create_clean_maya_app_dir w fs0 = (Return maya_app_dir, fs1) ∧
     os.find system fs1 maya_app_dir = Some (os.Dir ro entries) ∧
     is_Some (os.find system fs1 temp_dir)) ∧
  (∀ w',
     run_tests.platform_system w' = system ->
     run_tests.tempfile_gettempdir w' = temp_dir ->
     run_tests.uuid_uuid4 w' ≠ run_tests.uuid_uuid4 w ->
     os.path_join system temp_dir ("maya_app_dir" +:+ run_tests.uuid_uuid4 w')
       ≠ maya_app_dir).
Proof.
  intros system temp_dir name maya_app_dir Htemp Hsrc Hfresh.
  destruct (path_join_name system temp_dir) as (sep & Hsep & Hjoin).
  assert (∀ uuid, os.path_join system temp_dir ("maya_app_dir" +:+ uuid)
                  = temp_dir +:+ sep +:+ "maya_app_dir" +:+ uuid) as Hname.
  { intros uuid. apply (Hjoin "m"%char). discriminate. }
  assert (maya_app_dir ≠ temp_dir) as Hlonger.
  { intros Heq.
    assert (String.length temp_dir < String.length maya_app_dir)%nat as Hlen
      by (apply (path_join_name_longer system temp_dir "m"%char
                   ("aya_app_dir" +:+ run_tests.uuid_uuid4 w)); discriminate).
    rewrite Heq in Hlen. lia. }
  assert (maya_app_dir ≠ "") as Hnonempty.
  { intros Heq. unfold maya_app_dir, name in Heq. rewrite Hname in Heq.
    apply (f_equal String.length) in Heq. rewrite !append_length in Heq.
    simpl in Heq. lia. }
  split; [|split].
  - exists sep. split; [exact Hsep|]. apply Hname.
  - set (app_dir := os.path_join system (run_tests.CURRENT_DIR w) "clean_maya_app_dir") in *.
    (* the state after the temporary directory has been ensured *)
    assert (∃ fs0',
              (found <- os.path_exists system temp_dir ;;
               if negb found then os.makedirs system temp_dir else ret tt) fs0
                = (Return tt, fs0') ∧
              os.find system fs0' app_dir = Some (os.Dir ro entries) ∧
              os.find system fs0' maya_app_dir = None ∧
              is_Some (os.find system fs0' temp_dir)) as (fs0' & Hprep & Hsrc' & Hfresh' & Htmp').
    { unfold bind, os.path_exists.
      destruct (os.find system fs0 temp_dir) as [t|] eqn:Hfound.
      - exists fs0. rewrite bool_decide_true by by eexists. simpl.
        repeat split; done.
      - exists ((temp_dir, os.Dir false []) :: fs0).
        rewrite bool_decide_false by (by intros [? ?]). simpl.
        unfold os.makedirs. rewrite Hfound.
        assert (String.eqb temp_dir "" = false) as -> by by apply String.eqb_neq.
        split; [reflexivity|].
        assert (app_dir ≠ "") as Happ by (intros Heq; rewrite Heq in Hsrc; discriminate Hsrc).
        assert (temp_dir ≠ app_dir) as Hne by (intros Heq; congruence).
        rewrite !find_cons by done.
        rewrite find_tree_root.
        rewrite !find_tree_empty_dir by done.
        split; [exact Hsrc|]. split; [exact Hfresh|]. by eexists. }
    exists ((maya_app_dir, os.Dir ro entries) :: fs0').
    split; [|split].
    + change (run_tests.create_clean_maya_app_dir w) with
        (found <- os.path_exists system temp_dir ;;
         (if negb found then os.makedirs system temp_dir else ret tt) ;;
         found <- os.path_exists system maya_app_dir ;;
         (if (found : bool)
          then shutil.rmtree system maya_app_dir (Some (run_tests.remove_read_only w))
          else ret tt) ;;
         shutil.copytree system app_dir maya_app_dir ;;
         ret maya_app_dir).
      rewrite <- bind_assoc. unfold bind at 1. rewrite Hprep.
      unfold bind, os.path_exists. rewrite Hfresh'.
      rewrite bool_decide_false by (by intros [? ?]). simpl.
      unfold shutil.copytree. by rewrite Hsrc', Hfresh'.
    + rewrite find_cons by done. by rewrite find_tree_root.
    + rewrite find_cons by done.
      destruct (os.find_tree system maya_app_dir (os.Dir ro entries) temp_dir);
        [by eexists | exact Htmp'].
  - intros w' _ _ Huuid Heq. apply Huuid.
    unfold maya_app_dir, name in Heq. rewrite !Hname in Heq.
    apply append_inj_r, append_inj_r in Heq.
    by apply (append_inj_r "maya_app_dir") in Heq.
Qed.

Lemma create_clean_maya_app_dir_fresh_copy_witness :
  ∃ fs1,
    run_tests.create_clean_maya_app_dir linux_world linux_fs
      = (Return "/tmp/maya_app_dir0b1e4c1e-58b3-4f4e-9a55-5d3c1b1f2a10", fs1) ∧
    os.find "Linux" fs1 "/tmp/maya_app_dir0b1e4c1e-58b3-4f4e-9a55-5d3c1b1f2a10"
      = Some (sample_prefs false).
Proof.
  destruct (create_clean_maya_app_dir_fresh_copy linux_world linux_fs false
              [ ("prefs", os.Dir false [ ("userPrefs.mel", os.File false "// prefs") ]) ])
    as (_ & (fs1 & Hrun & Hcopy & _) & _).
  - discriminate.
  - vm_compute. reflexivity.
  - vm_compute. reflexivity.
  - exists fs1. split; [exact Hrun | exact Hcopy].
Defined.

(** *** What the two defects mean in general *)

(** Whenever the removal in [finally] raises, that exception is what [main]
    ends with, whatever the child returned. *)
Lemma main_cleanup_exception_wins (w : run_tests.World) (s : run_tests.Proc)
    (exe dir : string) (fs1 fs2 : os.FS) (e : exn) :
  (run_tests.get_mayapy_executable w (default 2020 (run_tests.argv_maya w))
     (run_tests.fs s)).1 = Return exe ->
  run_tests.create_clean_maya_app_dir w (run_tests.fs s) = (Return dir, fs1) ->
  shutil.rmtree (run_tests.platform_system w) dir None (run_tests.child_writes w fs1)
    = (Raise e, fs2) ->
  (run_tests.main w s).1 = Raise e.
Proof.
  intros Hexe Hdir Hclean.
  rewrite (main_after_setup w s exe dir fs1 Hexe Hdir). cbv zeta.
  by rewrite Hclean.
Qed.


(* ===================================================================== *)
(** ** Further properties of the two scripts                             *)
(* ===================================================================== *)

(** *** Trees and the exceptions of the filesystem operations *)

(** Induction over a tree with a hypothesis for every entry of a directory. *)
Lemma tree_entries_ind (P : os.tree -> Prop) :
  (∀ ro data, P (os.File ro data)) ->
  (∀ ro entries, Forall (fun e => P e.2) entries -> P (os.Dir ro entries)) ->
  ∀ t, P t.
Proof.
  intros Hfile Hdir. fix IH 1. intros [ro data|ro entries].
  - apply Hfile.
  - apply Hdir. induction entries as [|[name c] entries IHentries].
    + constructor.
    + constructor; [apply IH | apply IHentries].
Qed.

(** An operation that only fails with [OSError] does so at every path. *)
Lemma alter_tree_raises (system : string) (op : os.entry_op) :
  (∀ t e, op t = Raise e -> is_OSError e) ->
  ∀ t full p e,
    os.alter_tree system op full t p = Some (Raise e) -> is_OSError e.
Proof.
  intros Hop t. induction t as [ro data|ro entries IH] using tree_entries_ind;
    intros full p e; cbn [os.alter_tree].
  - destruct (String.eqb full p); [|discriminate].
    intros [= Heq]. by eapply Hop.
  - destruct (String.eqb full p).
    { intros [= Heq]. by eapply Hop. }
    induction IH as [|[name c] entries Hc _ IHentries]; [discriminate|].
    cbn [snd] in Hc.
    destruct (os.alter_tree system op (os.path_join system full name) c p)
      as [[[c'|]|e']|] eqn:Hhead.
    + discriminate.
    + discriminate.
    + intros [= <-]. eapply Hc. exact Hhead.
    + intros Htail. apply IHentries.
      destruct ((fix alter_in (es : list (string * os.tree)) := _) entries)
        as [[es''|e'']|]; try discriminate. exact Htail.
Qed.

Lemma at_path_raises (system : string) (op : os.entry_op) (p : string) (fs : os.FS) (e : exn) :
  (∀ t e, op t = Raise e -> is_OSError e) ->
  (os.at_path system op p fs).1 = Raise e -> is_OSError e.
Proof.
  intros Hop. unfold os.at_path.
  destruct (String.eqb p ""); [intros [= <-]; by do 2 eexists|].
  destruct (os.alter_tree system op "" (os.Dir false fs) p) as [[[[]|]|e']|] eqn:Halter;
    simpl; try discriminate.
  - intros [= <-]. by eapply alter_tree_raises.
  - intros [= <-]. by do 2 eexists.
Qed.

Lemma remove_raises (system p : string) (fs : os.FS) (e : exn) :
  (os.remove system p fs).1 = Raise e -> is_OSError e.
Proof.
  apply at_path_raises. intros [[] data|ro entries] e'; intros [= <-]; by do 2 eexists.
Qed.

Lemma rmdir_raises (system p : string) (fs : os.FS) (e : exn) :
  (os.rmdir system p fs).1 = Raise e -> is_OSError e.
Proof.
  apply at_path_raises.
  intros [ro data|[] [|entry entries]] e'; intros [= <-]; by do 2 eexists.
Qed.

Lemma listdir_raises (system p : string) (fs : os.FS) (e : exn) :
  ((_ <- os.listdir system p ;; ret tt) fs).1 = Raise e -> is_OSError e.
Proof.
  unfold bind, os.listdir.
  destruct (os.find system fs p) as [[ro data|ro entries]|]; simpl;
    intros [= <-]; by do 2 eexists.
Qed.

Lemma bind_raises {S A B} (m : M S A) (k : A -> M S B) (s : S) (e : exn) :
  (bind m k s).1 = Raise e ->
  (m s).1 = Raise e ∨ ∃ a s', m s = (Return a, s') ∧ (k a s').1 = Raise e.
Proof.
  unfold bind. destruct (m s) as [[a|e'] s']; simpl; intros Hk.
  - right. by exists a, s'.
  - left. by injection Hk as ->.
Qed.

(** *** The two error handlers of [shutil.rmtree] in the launcher *)

(** What [remove_read_only] does with the [OSError] of a failed removal. *)
Lemma remove_read_only_on_OSError (w : run_tests.World) (f : os.func)
    (path : string) (n : errno_t) (filename : string) (fs : os.FS) :
  run_tests.remove_read_only w f path (sys_exc_info (OSError n filename)) fs =
    (Raise (if bool_decide (f ∈ [os.f_rmdir; os.f_remove])
            then NameError "errno"
            else RuntimeError ("Could not remove " +:+ path)), fs).
Proof.
  unfold run_tests.remove_read_only, bind.
  by destruct (bool_decide (f ∈ [os.f_rmdir; os.f_remove])).
Qed.

(** Without a handler, a guarded operation behaves as the operation. *)
Lemma guarded_reraise (f : os.func) (path : string) (op : M os.FS unit) (fs : os.FS) :
  shutil.guarded shutil.reraise f path op fs = op fs.
Proof.
  unfold shutil.guarded, try_except, shutil.reraise, raise.
  by destruct (op fs) as [[[]|[]] fs'].
Qed.

Lemma guarded_reraise_raises (f : os.func) (path : string) (op : M os.FS unit)
    (fs : os.FS) (e : exn) :
  (∀ fs e, (op fs).1 = Raise e -> is_OSError e) ->
  (shutil.guarded shutil.reraise f path op fs).1 = Raise e -> is_OSError e.
Proof. intros Hop. rewrite guarded_reraise. apply Hop. Qed.

Lemma guarded_handler_raises (w : run_tests.World) (f : os.func) (path : string)
    (op : M os.FS unit) (fs : os.FS) (e : exn) :
  (∀ fs e, (op fs).1 = Raise e -> is_OSError e) ->
  (shutil.guarded (run_tests.remove_read_only w) f path op fs).1 = Raise e ->
  is_handler_error e.
Proof.
  intros Hop. unfold shutil.guarded, try_except.
  pose proof (Hop fs) as Hfs.
  destruct (op fs) as [[[]|e'] fs']; simpl in *; [discriminate|].
  destruct (Hfs e' eq_refl) as (n & filename & ->).
  rewrite remove_read_only_on_OSError. simpl. intros [= <-].
  destruct (bool_decide _); [by left | right; by eexists].
Qed.

(** Whatever the walk of [rmtree] raises was raised by a guarded operation. *)
Lemma rmtree_walk_raises (system : string) (onerror : shutil.handler)
    (Q : exn -> Prop) :
  (∀ f path op fs e,
     (∀ fs e, (op fs).1 = Raise e -> is_OSError e) ->
     (shutil.guarded onerror f path op fs).1 = Raise e -> Q e) ->
  ∀ t path fs e,
    (shutil.rmtree_walk system onerror path t fs).1 = Raise e -> Q e.
Proof.
  intros Hguard t.
  induction t as [ro data|ro entries IH] using tree_entries_ind;
    intros path fs e; cbn [shutil.rmtree_walk].
  - intros [Hlist|(a & fs' & _ & Hrmdir)]%bind_raises.
    + eapply Hguard; [|exact Hlist]. intros fs0 e0. apply listdir_raises.
    + eapply Hguard; [|exact Hrmdir]. intros fs0 e0. apply rmdir_raises.
  - intros [Heach|(a & fs' & _ & Hrmdir)]%bind_raises.
    + clear -Hguard IH Heach. revert fs Heach.
      induction IH as [|[name c] entries Hc _ IHentries]; intros fs Heach.
      * discriminate Heach.
      * apply bind_raises in Heach as [Hhead|(a & fs' & _ & Htail)].
        -- destruct c as [ro' data|ro' entries'].
           ++ eapply Hguard; [|exact Hhead]. intros fs0 e0. apply remove_raises.
           ++ eapply Hc. exact Hhead.
        -- eapply IHentries. exact Htail.
    + eapply Hguard; [|exact Hrmdir]. intros fs0 e0. apply rmdir_raises.
Qed.

Lemma rmtree_raises (system : string) (onerror : option shutil.handler)
    (Q : exn -> Prop) (path : string) (fs : os.FS) (e : exn) :
  (∀ f path op fs e,
     (∀ fs e, (op fs).1 = Raise e -> is_OSError e) ->
     (shutil.guarded (default shutil.reraise onerror) f path op fs).1 = Raise e -> Q e) ->
  (shutil.rmtree system path onerror fs).1 = Raise e -> Q e.
Proof.
  intros Hguard. unfold shutil.rmtree.
  destruct (os.find system fs path) as [t|].
  - by apply rmtree_walk_raises.
  - intros [Hlist|(a & fs' & _ & Hrmdir)]%bind_raises.
    + eapply Hguard; [|exact Hlist]. intros fs0 e0. apply listdir_raises.
    + eapply Hguard; [|exact Hrmdir]. intros fs0 e0. apply rmdir_raises.
Qed.

(** *** Locating the interpreter: failure and frame *)

(** X1. Neither [get_maya_location] nor [get_mayapy_executable] ever
    changes the filesystem, whether they return or raise. *)
Theorem locating_never_writes (w : run_tests.World) (v : Z) (fs : os.FS) :
  (run_tests.get_maya_location w v fs).2 = fs ∧
  (run_tests.get_mayapy_executable w v fs).2 = fs.
Proof. split; [apply get_maya_location_fs | apply get_mayapy_executable_fs]. Qed.

Lemma get_mayapy_executable_not_installed (w : run_tests.World) (v : Z) (fs : os.FS)
    (location : string) :
  run_tests.candidate_location w v = Some location ->
  os.find (run_tests.platform_system w) fs location = None ->
  run_tests.get_mayapy_executable w v fs = (Raise (run_tests.not_installed v), fs).
Proof.
  intros Hc Hf. unfold run_tests.get_mayapy_executable, bind.
  by rewrite (get_maya_location_missing w v fs location Hc Hf).
Qed.

(** X2. When the location is not on the filesystem, [get_mayapy_executable]
    builds no path: it ends with the [RuntimeError] of [get_maya_location]. *)
Theorem get_mayapy_executable_missing (w : run_tests.World) (v : Z) (fs : os.FS)
    (location : string) :
  run_tests.candidate_location w v = Some location ->
  os.find (run_tests.platform_system w) fs location = None ->
  run_tests.get_mayapy_executable w v fs =
    (Raise (RuntimeError ("Maya " +:+ str_int v +:+ " is not installed on this system.")), fs).
Proof. apply get_mayapy_executable_not_installed. Qed.

Lemma get_mayapy_executable_missing_witness :
  run_tests.get_mayapy_executable linux_world 2019 linux_fs =
    (Raise (RuntimeError "Maya 2019 is not installed on this system."), linux_fs).
Proof.
  apply (get_mayapy_executable_missing linux_world 2019 linux_fs "/usr/autodesk/maya2019").
  - vm_compute. reflexivity.
  - vm_compute. reflexivity.
Defined.

(** *** [main]: the ways it ends *)

(** X3. Without an installation, [main] stops at once with the
    [RuntimeError]: no directory is made, no child is spawned, and the
    launcher's exit code is 1. *)
Theorem main_aborts_when_maya_missing (w : run_tests.World) (s : run_tests.Proc)
    (location : string) :
  let v := default 2020 (run_tests.argv_maya w) in
  run_tests.candidate_location w v = Some location ->
  os.find (run_tests.platform_system w) (run_tests.fs s) location = None ->
  run_tests.main w s =
    (Raise (RuntimeError ("Maya " +:+ str_int v +:+ " is not installed on this system.")), s) ∧
  launcher_exit_code w s = 1.
Proof.
  intros v Hc Hf.
  assert (run_tests.main w s = (Raise (run_tests.not_installed v), s)) as Hmain.
  { unfold run_tests.main, bind at 1. fold v.
    rewrite (in_fs_ret (run_tests.get_mayapy_executable w v) s _ _
               (get_mayapy_executable_not_installed w v _ location Hc Hf)).
    by destruct s. }
  split; [exact Hmain|]. unfold launcher_exit_code. by rewrite Hmain.
Qed.

Lemma main_aborts_when_maya_missing_witness :
  run_tests.main (sample_world "Linux" ∅ (Some 2019) "/repo/maya-tests" "/tmp" (Return 0))
      linux_proc
    = (Raise (RuntimeError "Maya 2019 is not installed on this system."), linux_proc).
Proof.
  apply (main_aborts_when_maya_missing
           (sample_world "Linux" ∅ (Some 2019) "/repo/maya-tests" "/tmp" (Return 0))
           linux_proc "/usr/autodesk/maya2019").
  - vm_compute. reflexivity.
  - vm_compute. reflexivity.
Defined.

(** X4. When the preferences cannot be set up, [main] ends with that
    exception: no child is spawned and the [finally] clause, which is not
    entered yet, removes nothing. *)
Theorem main_prefs_failure_spawns_nothing (w : run_tests.World) (s : run_tests.Proc)
    (exe : string) (e : exn) (fs1 : os.FS) :
  (run_tests.get_mayapy_executable w (default 2020 (run_tests.argv_maya w))
     (run_tests.fs s)).1 = Return exe ->
  run_tests.create_clean_maya_app_dir w (run_tests.fs s) = (Raise e, fs1) ->
  run_tests.main w s =
    (Raise e, {| run_tests.fs := fs1; run_tests.spawned := run_tests.spawned s |}).
Proof.
  intros Hexe Hdir.
  pose proof (get_mayapy_executable_fs w (default 2020 (run_tests.argv_maya w))
                (run_tests.fs s)) as Hfs.
  destruct (run_tests.get_mayapy_executable w _ (run_tests.fs s)) as [r fs0] eqn:Hrun.
  simpl in Hexe, Hfs. subst r fs0.
  unfold run_tests.main, bind at 1.
  rewrite (in_fs_ret (run_tests.get_mayapy_executable w _) s _ _ Hrun).
  destruct s as [fs0 log]. simpl in *.
  unfold bind at 1.
  by rewrite (in_fs_ret (run_tests.create_clean_maya_app_dir w)
                {| run_tests.fs := fs0; run_tests.spawned := log |} _ _ Hdir).
Qed.

Lemma main_prefs_failure_spawns_nothing_witness :
  run_tests.main linux_world
      {| run_tests.fs := linux_fs_no_bundle; run_tests.spawned := [] |}
    = (Raise (OSError ENOENT "/repo/maya-tests/clean_maya_app_dir"),
       {| run_tests.fs := linux_fs_no_bundle; run_tests.spawned := [] |}).
Proof.
  apply (main_prefs_failure_spawns_nothing linux_world
           {| run_tests.fs := linux_fs_no_bundle; run_tests.spawned := [] |}
           "/usr/autodesk/maya2020/bin/mayapy").
  - vm_compute. reflexivity.
  - vm_compute. reflexivity.
Defined.

(** X5. The one child [main] spawns is the interpreter with the path of
    suite.py in the scripts' directory as its only argument. *)
Theorem main_spawns_suite_command (w : run_tests.World) (s : run_tests.Proc)
    (exe dir : string) (fs1 : os.FS) :
  (run_tests.get_mayapy_executable w (default 2020 (run_tests.argv_maya w))
     (run_tests.fs s)).1 = Return exe ->
  run_tests.create_clean_maya_app_dir w (run_tests.fs s) = (Return dir, fs1) ->
  (run_tests.spawned (run_tests.main w s).2).*1 =
    ((run_tests.spawned s).*1 ++
     [[exe; os.path_join (run_tests.platform_system w) (run_tests.script_dir w) "suite.py"]])%list.
Proof.
  intros Hexe Hdir.
  rewrite (main_after_setup w s exe dir fs1 Hexe Hdir). cbv zeta. simpl.
  by rewrite fmap_app.
Qed.

Lemma main_spawns_suite_command_witness :
  (run_tests.spawned (run_tests.main windows_world windows_proc).2).*1 =
    [["C:/Program Files/Autodesk/Maya2020/bin/mayapy.exe"; "C:\ci\maya-tests\suite.py"]].
Proof.
  eapply (main_spawns_suite_command windows_world windows_proc).
  - vm_compute. reflexivity.
  - vm_compute. reflexivity.
Defined.

(** X6. When the child cannot be started, [subprocess.call] raises an
    [OSError]; [main] still removes the preferences directory and then ends
    with that error: the launcher's exit code is 1. *)
Theorem main_launch_failure_propagates (w : run_tests.World) (s : run_tests.Proc)
    (exe dir : string) (fs1 fs2 : os.FS) (n : errno_t) (filename : string) :
  (run_tests.get_mayapy_executable w (default 2020 (run_tests.argv_maya w))
     (run_tests.fs s)).1 = Return exe ->
  run_tests.create_clean_maya_app_dir w (run_tests.fs s) = (Return dir, fs1) ->
  run_tests.child_returncode w = Raise (OSError n filename) ->
  shutil.rmtree (run_tests.platform_system w) dir None (run_tests.child_writes w fs1)
    = (Return tt, fs2) ->
  (run_tests.main w s).1 = Raise (OSError n filename) ∧
  run_tests.fs (run_tests.main w s).2 = fs2 ∧
  launcher_exit_code w s = 1.
Proof.
  intros Hexe Hdir Hrc Hclean. unfold launcher_exit_code.
  rewrite (main_after_setup w s exe dir fs1 Hexe Hdir). cbv zeta.
  by rewrite Hclean, Hrc.
Qed.

Lemma main_launch_failure_propagates_witness :
  (run_tests.main linux_world_no_binary linux_proc).1
    = Raise (OSError ENOENT "/usr/autodesk/maya2020/bin/mayapy") ∧
  run_tests.fs (run_tests.main linux_world_no_binary linux_proc).2 = linux_fs.
Proof.
  destruct (main_launch_failure_propagates linux_world_no_binary linux_proc
              "/usr/autodesk/maya2020/bin/mayapy"
              "/tmp/maya_app_dir0b1e4c1e-58b3-4f4e-9a55-5d3c1b1f2a10"
              (linux_fs_with (sample_prefs false)) linux_fs
              ENOENT "/usr/autodesk/maya2020/bin/mayapy")
    as (Hout & Hfs & _).
  - vm_compute. reflexivity.
  - vm_compute. reflexivity.
  - reflexivity.
  - vm_compute. reflexivity.
  - split; [exact Hout | exact Hfs].
Defined.

(** X7. Whenever the removal in [finally] raises, it raises an [OSError],
    [main] ends with it whatever the child returned, and the launcher's
    exit code is 1. *)
Theorem main_exit_code_after_failed_cleanup (w : run_tests.World) (s : run_tests.Proc)
    (exe dir : string) (fs1 : os.FS) (e : exn) :
  (run_tests.get_mayapy_executable w (default 2020 (run_tests.argv_maya w))
     (run_tests.fs s)).1 = Return exe ->
  run_tests.create_clean_maya_app_dir w (run_tests.fs s) = (Return dir, fs1) ->
  (shutil.rmtree (run_tests.platform_system w) dir None (run_tests.child_writes w fs1)).1
    = Raise e ->
  is_OSError e ∧ (run_tests.main w s).1 = Raise e ∧ launcher_exit_code w s = 1.
Proof.
  intros Hexe Hdir Hclean.
  assert (is_OSError e) as Hos.
  { eapply (rmtree_raises _ None is_OSError); [|exact Hclean].
    intros f path op fs0 e0. apply guarded_reraise_raises. }
  destruct (shutil.rmtree _ dir None _) as [r fs2] eqn:Hrm. simpl in Hclean. subst r.
  pose proof (main_cleanup_exception_wins w s exe dir fs1 fs2 e Hexe Hdir Hrm) as Hmain.
  split; [exact Hos|]. split; [exact Hmain|].
  unfold launcher_exit_code. rewrite Hmain. by destruct Hos as (n & filename & ->).
Qed.

Lemma main_exit_code_after_failed_cleanup_witness :
  launcher_exit_code windows_world windows_proc = 1.
Proof.
  eapply (main_exit_code_after_failed_cleanup windows_world windows_proc).
  - vm_compute. reflexivity.
  - vm_compute. reflexivity.
  - vm_compute. reflexivity.
Defined.

(** X8. If the preferences directory is gone when the child is done, the
    removal in [finally] fails on it: [main] ends with [OSError(ENOENT)]
    for that path and the launcher's exit code is 1, whatever the child
    returned. *)
Theorem main_fails_when_prefs_gone (w : run_tests.World) (s : run_tests.Proc)
    (exe dir : string) (fs1 : os.FS) :
  (run_tests.get_mayapy_executable w (default 2020 (run_tests.argv_maya w))
     (run_tests.fs s)).1 = Return exe ->
  run_tests.create_clean_maya_app_dir w (run_tests.fs s) = (Return dir, fs1) ->
  os.find (run_tests.platform_system w) (run_tests.child_writes w fs1) dir = None ->
  (run_tests.main w s).1 = Raise (OSError ENOENT dir) ∧
  launcher_exit_code w s = 1.
Proof.
  intros Hexe Hdir Hgone.
  assert (shutil.rmtree (run_tests.platform_system w) dir None (run_tests.child_writes w fs1)
          = (Raise (OSError ENOENT dir), run_tests.child_writes w fs1)) as Hrm.
  { unfold shutil.rmtree. rewrite Hgone. unfold bind. rewrite guarded_reraise.
    unfold bind, os.listdir. by rewrite Hgone. }
  pose proof (main_cleanup_exception_wins w s exe dir fs1 _ _ Hexe Hdir Hrm) as Hmain.
  split; [exact Hmain|]. unfold launcher_exit_code. by rewrite Hmain.
Qed.

Lemma main_fails_when_prefs_gone_witness :
  (run_tests.main linux_world_child_cleans linux_proc).1
    = Raise (OSError ENOENT "/tmp/maya_app_dir0b1e4c1e-58b3-4f4e-9a55-5d3c1b1f2a10").
Proof.
  eapply (main_fails_when_prefs_gone linux_world_child_cleans linux_proc).
  - vm_compute. reflexivity.
  - vm_compute. reflexivity.
  - vm_compute. reflexivity.
Defined.

(** X9. When the child returned a code, the launcher's exit code is that
    code or 1: [main] never returns normally. *)
Theorem launcher_exit_code_is_childs_or_one (w : run_tests.World) (s : run_tests.Proc)
    (exe dir : string) (fs1 : os.FS) (rc : Z) :
  (run_tests.get_mayapy_executable w (default 2020 (run_tests.argv_maya w))
     (run_tests.fs s)).1 = Return exe ->
  run_tests.create_clean_maya_app_dir w (run_tests.fs s) = (Return dir, fs1) ->
  run_tests.child_returncode w = Return rc ->
  (∃ e, (run_tests.main w s).1 = Raise e) ∧
  (launcher_exit_code w s = rc ∨ launcher_exit_code w s = 1).
Proof.
  intros Hexe Hdir Hrc.
  destruct (shutil.rmtree (run_tests.platform_system w) dir None
              (run_tests.child_writes w fs1)) as [[[]|e] fs2] eqn:Hrm.
  - unfold launcher_exit_code.
    rewrite (main_after_setup w s exe dir fs1 Hexe Hdir). cbv zeta.
    rewrite Hrm, Hrc. simpl. split; [by eexists | by left].
  - assert (is_OSError e) as (n & filename & ->).
    { eapply (rmtree_raises _ None is_OSError).
      - intros f path op fs0 e0. apply guarded_reraise_raises.
      - by rewrite Hrm. }
    pose proof (main_cleanup_exception_wins w s exe dir fs1 fs2 _ Hexe Hdir Hrm) as Hmain.
    unfold launcher_exit_code. rewrite Hmain. split; [by eexists | by right].
Qed.

Lemma launcher_exit_code_is_childs_or_one_witness :
  launcher_exit_code linux_world linux_proc = 0 ∨
  launcher_exit_code linux_world linux_proc = 1.
Proof.
  eapply (launcher_exit_code_is_childs_or_one linux_world linux_proc).
  - vm_compute. reflexivity.
  - vm_compute. reflexivity.
  - reflexivity.
Defined.

(** *** [create_clean_maya_app_dir]: what is in the way, what is missing *)




(** Lines 70-72: afterwards the temporary directory exists, and every path
    that existed before, or differs from it, resolves as before. *)
Lemma ensure_temp_dir (system temp_dir : string) (fs0 : os.FS) :
  temp_dir ≠ "" ->
  ∃ fs0',
    (found <- os.path_exists system temp_dir ;;
     if negb found then os.makedirs system temp_dir else ret tt) fs0
      = (Return tt, fs0') ∧
    (∀ p, p ≠ temp_dir ∨ is_Some (os.find system fs0 p) ->
          os.find system fs0' p = os.find system fs0 p) ∧
    is_Some (os.find system fs0' temp_dir).
Proof.
  intros Htemp. unfold bind, os.path_exists.
  destruct (os.find system fs0 temp_dir) as [t|] eqn:Hfound.
  - exists fs0. rewrite bool_decide_true by by eexists. simpl.
    split; [done|]. split; [done|]. rewrite Hfound. by eexists.
  - exists ((temp_dir, os.Dir false []) :: fs0).
    rewrite bool_decide_false by (by intros [? ?]). simpl.
    unfold os.makedirs. rewrite Hfound.
    assert (String.eqb temp_dir "" = false) as -> by by apply String.eqb_neq.
    split; [reflexivity|]. split.
    + intros p Hp.
      assert (temp_dir ≠ p) as Hne.
      { destruct Hp as [Hp|[t Ht]]; [congruence|]. intros <-. congruence. }
      destruct (decide (p = "")) as [->|Hnonempty]; [reflexivity|].
      rewrite find_cons by done. by rewrite find_tree_empty_dir.
    + rewrite find_cons by done. rewrite find_tree_root. by eexists.
Qed.

Lemma create_clean_maya_app_dir_after_temp (w : run_tests.World) (fs0 fs0' : os.FS) :
  let system := run_tests.platform_system w in
  let temp_dir := run_tests.tempfile_gettempdir w in
  let maya_app_dir :=
    os.path_join system temp_dir ("maya_app_dir" +:+ run_tests.uuid_uuid4 w) in
  (found <- os.path_exists system temp_dir ;;
   if negb found then os.makedirs system temp_dir else ret tt) fs0 = (Return tt, fs0') ->
  run_tests.create_clean_maya_app_dir w fs0 =
    (found <- os.path_exists system maya_app_dir ;;
     (if (found : bool)
      then shutil.rmtree system maya_app_dir (Some (run_tests.remove_read_only w))
      else ret tt) ;;
     shutil.copytree system
       (os.path_join system (run_tests.CURRENT_DIR w) "clean_maya_app_dir") maya_app_dir ;;
     ret maya_app_dir) fs0'.
Proof.
  intros system temp_dir maya_app_dir Hprep.
  change (run_tests.create_clean_maya_app_dir w) with
    (found <- os.path_exists system temp_dir ;;
     (if negb found then os.makedirs system temp_dir else ret tt) ;;
     found <- os.path_exists system maya_app_dir ;;
     (if (found : bool)
      then shutil.rmtree system maya_app_dir (Some (run_tests.remove_read_only w))
      else ret tt) ;;
     shutil.copytree system
       (os.path_join system (run_tests.CURRENT_DIR w) "clean_maya_app_dir") maya_app_dir ;;
     ret maya_app_dir).
  rewrite <- bind_assoc. unfold bind at 1. by rewrite Hprep.
Qed.

Lemma maya_app_dir_not_temp_dir (system temp_dir uuid : string) :
  os.path_join system temp_dir ("maya_app_dir" +:+ uuid) ≠ temp_dir.
Proof.
  intros Heq.
  assert (String.length temp_dir
          < String.length (os.path_join system temp_dir ("maya_app_dir" +:+ uuid)))%nat
    as Hlen
    by (apply (path_join_name_longer system temp_dir "m"%char ("aya_app_dir" +:+ uuid));
        discriminate).
  rewrite Heq in Hlen. lia.
Qed.

(** X10. Without the bundled preferences next to the scripts,
    [create_clean_maya_app_dir] fails in [copytree] with [OSError(ENOENT)]
    for the bundled directory. *)
Theorem create_clean_maya_app_dir_missing_bundle (w : run_tests.World) (fs0 : os.FS) :
  let system := run_tests.platform_system w in
  let temp_dir := run_tests.tempfile_gettempdir w in
  let app_dir := os.path_join system (run_tests.CURRENT_DIR w) "clean_maya_app_dir" in
  let maya_app_dir :=
    os.path_join system temp_dir ("maya_app_dir" +:+ run_tests.uuid_uuid4 w) in
  temp_dir ≠ "" ->
  app_dir ≠ temp_dir ->
  os.find system fs0 app_dir = None ->
  os.find system fs0 maya_app_dir = None ->
  (run_tests.create_clean_maya_app_dir w fs0).1 = Raise (OSError ENOENT app_dir).
Proof.
  intros system temp_dir app_dir maya_app_dir Htemp Hne Hsrc Hfresh.
  destruct (ensure_temp_dir system temp_dir fs0 Htemp) as (fs0' & Hprep & Hsame & _).
  rewrite (create_clean_maya_app_dir_after_temp w fs0 fs0' Hprep). cbv zeta.
  fold system temp_dir maya_app_dir app_dir.
  unfold bind, os.path_exists.
  rewrite (Hsame maya_app_dir) by (left; apply maya_app_dir_not_temp_dir).
  rewrite Hfresh. rewrite bool_decide_false by (by intros [? ?]). simpl.
  unfold shutil.copytree. rewrite (Hsame app_dir) by by left. by rewrite Hsrc.
Qed.

Lemma create_clean_maya_app_dir_missing_bundle_witness :
  (run_tests.create_clean_maya_app_dir linux_world linux_fs_no_bundle).1
    = Raise (OSError ENOENT "/repo/maya-tests/clean_maya_app_dir").
Proof.
  apply (create_clean_maya_app_dir_missing_bundle linux_world linux_fs_no_bundle).
  - discriminate.
  - discriminate.
  - vm_compute. reflexivity.
  - vm_compute. reflexivity.
Defined.

(** X11. When a plain file sits at the path of the preferences directory,
    [rmtree] cannot list it, the handler is called with [os.listdir], and
    [create_clean_maya_app_dir] ends with
    [RuntimeError("Could not remove <path>")]. *)
Theorem create_clean_maya_app_dir_file_in_the_way (w : run_tests.World) (fs0 : os.FS)
    (ro : bool) (data : string) :
  let system := run_tests.platform_system w in
  let temp_dir := run_tests.tempfile_gettempdir w in
  let maya_app_dir :=
    os.path_join system temp_dir ("maya_app_dir" +:+ run_tests.uuid_uuid4 w) in
  temp_dir ≠ "" ->
  os.find system fs0 maya_app_dir = Some (os.File ro data) ->
  (run_tests.create_clean_maya_app_dir w fs0).1
    = Raise (RuntimeError ("Could not remove " +:+ maya_app_dir)).
Proof.
  intros system temp_dir maya_app_dir Htemp Hfile.
  destruct (ensure_temp_dir system temp_dir fs0 Htemp) as (fs0' & Hprep & Hsame & _).
  rewrite (create_clean_maya_app_dir_after_temp w fs0 fs0' Hprep). cbv zeta.
  fold system temp_dir maya_app_dir.
  unfold bind at 1. unfold os.path_exists.
  rewrite (Hsame maya_app_dir) by (left; apply maya_app_dir_not_temp_dir).
  rewrite Hfile. rewrite bool_decide_true by by eexists.
  unfold bind at 1. unfold shutil.rmtree.
  rewrite (Hsame maya_app_dir) by (left; apply maya_app_dir_not_temp_dir).
  rewrite Hfile. cbn [shutil.rmtree_walk default].
  unfold bind at 1. unfold shutil.guarded at 1. unfold try_except.
  unfold bind at 1. unfold os.listdir.
  rewrite (Hsame maya_app_dir) by (left; apply maya_app_dir_not_temp_dir).
  rewrite Hfile. unfold id. by rewrite remove_read_only_on_OSError.
Qed.

Lemma create_clean_maya_app_dir_file_in_the_way_witness :
  (run_tests.create_clean_maya_app_dir linux_world
     (linux_fs_with (os.File false "not a directory"))).1
    = Raise (RuntimeError
               "Could not remove /tmp/maya_app_dir0b1e4c1e-58b3-4f4e-9a55-5d3c1b1f2a10").
Proof.
  apply (create_clean_maya_app_dir_file_in_the_way linux_world
           (linux_fs_with (os.File false "not a directory")) false "not a directory").
  - discriminate.
  - vm_compute. reflexivity.
Defined.



Lemma stale_removal_raises_handler_errors_aux (w : run_tests.World) (path : string)
    (fs : os.FS) (e : exn) :
  (shutil.rmtree (run_tests.platform_system w) path
     (Some (run_tests.remove_read_only w)) fs).1 = Raise e ->
  is_handler_error e.
Proof.
  apply (rmtree_raises _ (Some (run_tests.remove_read_only w)) is_handler_error).
  intros f p op fs0 e0 Hop. by apply guarded_handler_raises.
Qed.

(** X13. Removing a stale preferences directory never surfaces the
    [OSError] of the operation that failed: whatever
    [rmtree(..., onerror=remove_read_only)] raises is the [NameError] for
    [errno] or a [RuntimeError("Could not remove ...")]. *)
Theorem stale_removal_raises_handler_errors (w : run_tests.World) (path : string)
    (fs : os.FS) (e : exn) :
  (shutil.rmtree (run_tests.platform_system w) path
     (Some (run_tests.remove_read_only w)) fs).1 = Raise e ->
  e = NameError "errno" ∨ ∃ p, e = RuntimeError ("Could not remove " +:+ p).
Proof. apply stale_removal_raises_handler_errors_aux. Qed.

Lemma stale_removal_raises_handler_errors_witness :
  NameError "errno" = NameError "errno" ∨
  ∃ p, NameError "errno" = RuntimeError ("Could not remove " +:+ p).
Proof.
  apply (stale_removal_raises_handler_errors linux_world
           "/tmp/maya_app_dir0b1e4c1e-58b3-4f4e-9a55-5d3c1b1f2a10"
           (linux_fs_with (sample_prefs true))).
  vm_compute. reflexivity.
Defined.

Lemma makedirs_raises (system p : string) (fs : os.FS) (e : exn) :
  (os.makedirs system p fs).1 = Raise e -> is_OSError e.
Proof.
  unfold os.makedirs. destruct (String.eqb p ""); [intros [= <-]; by do 2 eexists|].
  destruct (os.find system fs p); simpl; [|discriminate].
  intros [= <-]. by do 2 eexists.
Qed.

Lemma copytree_raises (system src dst : string) (fs : os.FS) (e : exn) :
  (shutil.copytree system src dst fs).1 = Raise e -> is_OSError e.
Proof.
  unfold shutil.copytree.
  destruct (os.find system fs src) as [[ro data|ro entries]|]; simpl;
    try (intros [= <-]; by do 2 eexists).
  destruct (os.find system fs dst); simpl; [|discriminate].
  intros [= <-]. by do 2 eexists.
Qed.

(** X14. [create_clean_maya_app_dir] fails in three ways only: with an
    [OSError] (of [makedirs] or [copytree]), with the [NameError] for
    [errno], or with a [RuntimeError("Could not remove ...")]. *)
Theorem create_clean_maya_app_dir_raises (w : run_tests.World) (fs : os.FS) (e : exn) :
  (run_tests.create_clean_maya_app_dir w fs).1 = Raise e ->
  (∃ n filename, e = OSError n filename) ∨
  e = NameError "errno" ∨
  ∃ p, e = RuntimeError ("Could not remove " +:+ p).
Proof.
  unfold run_tests.create_clean_maya_app_dir.
  intros [Hexists|(found & fs1 & _ & Hrest)]%bind_raises; [discriminate Hexists|].
  apply bind_raises in Hrest as [Hmk|([] & fs2 & _ & Hrest)].
  { left. destruct (negb found); [by eapply makedirs_raises | discriminate Hmk]. }
  apply bind_raises in Hrest as [Hexists|(stale & fs3 & _ & Hrest)]; [discriminate Hexists|].
  apply bind_raises in Hrest as [Hrm|([] & fs4 & _ & Hrest)].
  { right. destruct stale; [|discriminate Hrm].
    by eapply stale_removal_raises_handler_errors_aux. }
  apply bind_raises in Hrest as [Hcopy|([] & fs5 & _ & Hret)]; [|discriminate Hret].
  left. by eapply copytree_raises.
Qed.

Lemma create_clean_maya_app_dir_raises_witness :
  (∃ n filename, OSError ENOENT "/repo/maya-tests/clean_maya_app_dir" = OSError n filename) ∨
  OSError ENOENT "/repo/maya-tests/clean_maya_app_dir" = NameError "errno" ∨
  ∃ p, OSError ENOENT "/repo/maya-tests/clean_maya_app_dir"
       = RuntimeError ("Could not remove " +:+ p).
Proof.
  apply (create_clean_maya_app_dir_raises linux_world linux_fs_no_bundle).
  vm_compute. reflexivity.
Defined.

(** *** suite.py: the session around the tests *)

Lemma exit_status_raise {A} (e : exn) :
  (∀ code, e ≠ SystemExit code) -> exit_status (@Raise A e) = 1.
Proof. intros He. destruct e; try reflexivity. by destruct (He code). Qed.

(** X15. [mayapy_session] has no [try] around its [yield]: when the body of
    the [with] statement raises, the teardown is skipped, the runtime stays
    as the body left it, and the exception goes on. *)
Theorem mayapy_session_skips_teardown {A} (h : suite.Host) (body : M suite.runtime A)
    (s s' : suite.runtime) (e : exn) :
  suite.initialize_fails h = None ->
  body suite.Standalone = (Raise e, s') ->
  suite.mayapy_session h body s = (Raise e, s').
Proof.
  intros Hinit Hbody.
  unfold suite.mayapy_session, suite.session_setup, bind.
  by rewrite Hinit, Hbody.
Qed.

Lemma mayapy_session_skips_teardown_witness :
  suite.mayapy_session (sample_host []) (raise (RuntimeError "no scene") : M suite.runtime unit)
      suite.NotStarted
    = (Raise (RuntimeError "no scene"), suite.Standalone).
Proof.
  apply (mayapy_session_skips_teardown (sample_host [])); reflexivity.
Defined.

(** X16. When the host runtime does not start, [main] raises the exception
    of [maya.standalone.initialize]: no test is run, the runtime is as
    before, and the script exits with 1. *)
Theorem suite_setup_failure (h : suite.Host) (s : suite.runtime) (e : exn) :
  suite.initialize_fails h = Some e ->
  suite.main h s = (Raise e, s) ∧
  ((∀ code, e ≠ SystemExit code) -> exit_status (suite.script h s).1 = 1).
Proof.
  intros Hinit.
  assert (suite.main h s = (Raise e, s)) as Hmain.
  { unfold suite.main, suite.mayapy_session, suite.session_setup, bind.
    by rewrite Hinit. }
  split; [exact Hmain|]. intros He.
  unfold suite.script, bind. rewrite Hmain. cbn [fst]. by apply exit_status_raise.
Qed.

Lemma suite_setup_failure_witness :
  suite.main (faulty_host (Some (RuntimeError "license")) None
                [("test_rig.test_names", suite.Passed)]) suite.NotStarted
    = (Raise (RuntimeError "license"), suite.NotStarted).
Proof.
  apply (suite_setup_failure
           (faulty_host (Some (RuntimeError "license")) None
              [("test_rig.test_names", suite.Passed)])).
  reflexivity.
Defined.

(** X17. When [maya.standalone.uninitialize] raises, its exception
    replaces the value [main] was about to return: the result of the tests
    is lost and the script exits with 1 even if every test passed. *)
Theorem suite_teardown_failure (h : suite.Host) (s : suite.runtime) (e : exn) :
  suite.initialize_fails h = None ->
  suite.uninitialize_fails h = Some e ->
  suite.main h s = (Raise e, suite.Standalone) ∧
  ((∀ code, e ≠ SystemExit code) -> exit_status (suite.script h s).1 = 1).
Proof.
  intros Hinit Hquit.
  assert (suite.main h s = (Raise e, suite.Standalone)) as Hmain.
  { unfold suite.main, suite.mayapy_session, suite.session_setup,
      suite.session_teardown, suite.discover, suite.run, bind, ret.
    by rewrite Hinit, Hquit. }
  split; [exact Hmain|]. intros He.
  unfold suite.script, bind. rewrite Hmain. cbn [fst]. by apply exit_status_raise.
Qed.

Lemma suite_teardown_failure_witness :
  exit_status (suite.script (faulty_host None (Some (RuntimeError "plug-in"))
                               [("test_rig.test_names", suite.Passed)])
                 suite.NotStarted).1 = 1.
Proof.
  apply (suite_teardown_failure
           (faulty_host None (Some (RuntimeError "plug-in"))
              [("test_rig.test_names", suite.Passed)]) suite.NotStarted
           (RuntimeError "plug-in")).
  - reflexivity.
  - reflexivity.
  - discriminate.
Defined.


(** *** The launcher and suite.py together *)

(** X19. With suite.py as the child, a host runtime that starts and shuts
    down, and a cleanup that succeeds, the launcher's exit code is 1 when
    at least one test raised an unexpected exception and 0 otherwise. *)
Theorem launcher_with_suite_exit_code (w : run_tests.World) (h : suite.Host)
    (s : run_tests.Proc) (exe dir : string) (fs1 fs2 : os.FS) :
  let errored :=
    suite.ids_with suite.Errored (suite.discoverable h (suite.TEST_DIR h)) in
  (run_tests.get_mayapy_executable (with_suite w h)
     (default 2020 (run_tests.argv_maya w)) (run_tests.fs s)).1 = Return exe ->
  run_tests.create_clean_maya_app_dir (with_suite w h) (run_tests.fs s) = (Return dir, fs1) ->
  shutil.rmtree (run_tests.platform_system w) dir None (run_tests.child_writes w fs1)
    = (Return tt, fs2) ->
  suite.initialize_fails h = None ->
  suite.uninitialize_fails h = None ->
  launcher_exit_code (with_suite w h) s = (if decide (errored = []) then 0 else 1).
Proof.
  intros errored Hexe Hdir Hclean Hinit Hquit. unfold launcher_exit_code.
  rewrite (main_after_setup (with_suite w h) s exe dir fs1 Hexe Hdir). cbv zeta.
  cbn [with_suite run_tests.platform_system run_tests.child_writes
       run_tests.child_returncode].
  rewrite Hclean. cbn [fst exit_status].
  unfold suite.script, suite.main, suite.mayapy_session, suite.session_setup,
    suite.session_teardown, suite.discover, suite.run, bind, ret.
  rewrite Hinit, Hquit. simpl. fold errored. by destruct errored.
Qed.

Lemma launcher_with_suite_exit_code_witness :
  launcher_exit_code
    (with_suite linux_world (sample_host [("test_rig.test_build", suite.Errored)]))
    linux_proc = 1.
Proof.
  eapply (launcher_with_suite_exit_code linux_world
            (sample_host [("test_rig.test_build", suite.Errored)]) linux_proc).
  - vm_compute. reflexivity.
  - vm_compute. reflexivity.
  - vm_compute. reflexivity.
  - reflexivity.
  - reflexivity.
Defined.
